(** * gdb/common/enum-flags.h: the type-safe wrapper for enum flags

    The header has two sides, and so has this development.

    - Values: [enum_flags<E>] stores one value of the enumeration [E]
      and combines such values with [|], [&], [^], [~] and the compound
      assignments.  Enumeration values are integers of the enumeration's
      underlying type; they are modelled as [Z] with the conversions to
      that type written out.
    - Overloads: which of the header's operator templates a call
      selects, and whether the selected one is deleted.  The templates
      are kept as a table of declarations, and the selection follows
      the C++ rules the header relies on (deduction of the template
      arguments, the [enum_flags_type] trait as a filter, partial
      ordering of the templates). *)

From Stdlib Require Import ZArith Lia Bool List.
From stdpp Require Import base strings gmap.

Local Open Scope Z_scope.

(** ** Integer types *)

(** [std::underlying_type<E>::type]: an integer type, given by its width
    and signedness. *)
Record underlying_type : Set := IntegerType {
  ut_bits : positive;
  ut_signed : bool
}.

Definition modulus (t : underlying_type) : Z := 2 ^ Z.pos (ut_bits t).
Definition half_modulus (t : underlying_type) : Z := 2 ^ (Z.pos (ut_bits t) - 1).

Definition ut_min (t : underlying_type) : Z :=
  if ut_signed t then - half_modulus t else 0.
Definition ut_max (t : underlying_type) : Z :=
  if ut_signed t then half_modulus t - 1 else modulus t - 1.

(** The values an object of type [t] can hold. *)
Definition in_range (t : underlying_type) (z : Z) : Prop :=
  ut_min t <= z <= ut_max t.

Definition in_rangeb (t : underlying_type) (z : Z) : bool :=
  (ut_min t <=? z) && (z <=? ut_max t).

(** Conversion of an integer to type [t]: the value modulo [2 ^ bits],
    taken in the range of [t] (two's complement for a signed [t]). *)
Definition convert_to (t : underlying_type) (z : Z) : Z :=
  if ut_signed t
  then (z + half_modulus t) mod modulus t - half_modulus t
  else z mod modulus t.

(** [int] and [unsigned int] of the hosts GDB builds on. *)
Definition int : underlying_type := IntegerType 32 true.
Definition unsigned_int : underlying_type := IntegerType 32 false.

(** Integral promotion: a type narrower than [int] is promoted to [int],
    which holds all its values; [int] and the wider types stay. *)
Definition integral_promotion (t : underlying_type) : underlying_type :=
  if Z.pos (ut_bits t) <? Z.pos (ut_bits int) then int else t.

(** The [OP] argument of the generator macros, and unary [~]. *)
Inductive binop : Set := OpOr | OpAnd | OpXor.

Definition Z_binop (op : binop) : Z -> Z -> Z :=
  match op with
  | OpOr => Z.lor
  | OpAnd => Z.land
  | OpXor => Z.lxor
  end.

(** The built-in operators on two operands of integer type [t]: both are
    promoted, the operation is done in the promoted type and has that
    type. *)
Definition builtin_binop (op : binop) (t : underlying_type) (a b : Z) : Z :=
  convert_to (integral_promotion t) (Z_binop op a b).

Definition builtin_not (t : underlying_type) (a : Z) : Z :=
  convert_to (integral_promotion t) (Z.lnot a).

(** ** Enumerations and the wrapper class *)

(** An enumeration: its name, its underlying type and its enumerators. *)
Record enum_decl : Set := EnumDecl {
  enum_name : string;
  enum_underlying : underlying_type;
  enumerators : list (string * Z)
}.

Definition enumerator_values (E : enum_decl) : list Z :=
  map snd (enumerators E).

(** A value of the enumeration [E].  The projection is the source's
    [underlying (e)], the conversion of [e] to the underlying type. *)
Record enum_type (E : enum_decl) : Set := EnumValue { underlying : Z }.
Arguments EnumValue {E} _.
Arguments underlying {E} _.

(** [class enum_flags<E>]: one data member. *)
Record enum_flags (E : enum_decl) : Set := EnumFlags {
  m_enum_value : enum_type E
}.
Arguments EnumFlags {E} _.
Arguments m_enum_value {E} _.

(** [struct zero_type;] is never completed, so the only value of type
    [zero_type *] is the null pointer. *)
Inductive zero_type_ptr : Set := null_zero_type.

Section EnumFlags.

Variable E : enum_decl.

(** The cast [(enum_type) z] of an integer.  An enumeration holds every
    value of its underlying type, as the compilers GDB is built with
    have it and as the header's [~] needs it. *)
Definition to_enum (z : Z) : enum_type E := EnumValue (convert_to (enum_underlying E) z).

(** *** Global operators on the raw enumeration (lines 162-168, 258-264) *)

(** [return (enum_type) (underlying (e1) OP underlying (e2));] *)
Definition enum_binop (op : binop) (e1 e2 : enum_type E) : enum_type E :=
  to_enum (builtin_binop op (enum_underlying E) (underlying e1) (underlying e2)).

(** [return (enum_type) ~underlying (e);] *)
Definition enum_not (e : enum_type E) : enum_type E :=
  to_enum (builtin_not (enum_underlying E) (underlying e)).

(** *** Constructors *)

(** [enum_flags () = default;] with a member that has no initialiser:
    the constructor itself writes nothing, the member keeps what the
    object's storage held before.  That content is the argument.  What
    the storage holds when the constructor runs depends on the form of
    the initialisation, see [initialize] below. *)
Definition enum_flags_default (storage : enum_flags E) : enum_flags E :=
  storage.

(** [enum_flags (enum_type e) : m_enum_value (e)].  This constructor and
    the next write the only member, so what the storage held before
    does not reach the object and is no argument. *)
Definition enum_flags_from_enum (e : enum_type E) : enum_flags E :=
  EnumFlags e.

(** [enum_flags (zero_type *zero) : m_enum_value ((enum_type) 0)] *)
Definition enum_flags_from_zero (zero : zero_type_ptr) : enum_flags E :=
  EnumFlags (to_enum 0).

(** *** Member functions

    A call [obj.m (args)] maps the object before the call to the
    call's result and the object after it.  A member that returns
    [*this] returns the object after the call. *)
Definition member (A : Type) : Type := enum_flags E -> A * enum_flags E.

Definition result {A : Type} (r : A * enum_flags E) : A := fst r.
Definition object_after {A : Type} (r : A * enum_flags E) : enum_flags E := snd r.

(** [constexpr operator underlying_type () const { return m_enum_value; }] *)
Definition operator_underlying_type : member Z :=
  fun this => (underlying (m_enum_value this), this).

(** [constexpr enum_type raw () const { return m_enum_value; }] *)
Definition raw : member (enum_type E) :=
  fun this => (m_enum_value this, this).

(** The three members [operator&=], [operator|=] and [operator^=]
    (lines 117-131) differ in the operator only:
    [m_enum_value = (enum_type) (m_enum_value OP e.m_enum_value);
     return *this;]
    Both operands of [OP] have type [enum_type].  For a flags enum the
    expression is a call of the global operator above, and the cast is
    from [enum_type] to itself; otherwise it is the built-in operator on
    the promoted operands and the cast converts its result, which is
    what the global operator does in its body. *)
Definition operator_assign_op (op : binop) (e : enum_flags E) : member (enum_flags E) :=
  fun this =>
    let this' := EnumFlags (enum_binop op (m_enum_value this) (m_enum_value e)) in
    (this', this').

Definition operator_and_assign : enum_flags E -> member (enum_flags E) :=
  operator_assign_op OpAnd.
Definition operator_or_assign : enum_flags E -> member (enum_flags E) :=
  operator_assign_op OpOr.
Definition operator_xor_assign : enum_flags E -> member (enum_flags E) :=
  operator_assign_op OpXor.

(** [constexpr enum_flags operator~ () const
     { return (enum_type) ~m_enum_value; }] *)
Definition operator_not : member (enum_flags E) :=
  fun this => (enum_flags_from_enum (enum_not (m_enum_value this)), this).

(** The implicit copy assignment [obj = e]. *)
Definition operator_assign (e : enum_flags E) : member (enum_flags E) :=
  fun this => (e, e).

(** *** Global binary operators with a wrapper operand (lines 170-186) *)

(** [OPERATOR_OP (enum_flags<enum_type> e1, enum_type e2)
     { return e1.raw () OP e2; }] *)
Definition flags_enum_binop (op : binop)
    (e1 : enum_flags E) (e2 : enum_type E) : enum_flags E :=
  enum_flags_from_enum (enum_binop op (result (raw e1)) e2).

(** [OPERATOR_OP (enum_type e1, enum_flags<enum_type> e2)
     { return e1 OP e2.raw (); }] *)
Definition enum_flags_binop (op : binop)
    (e1 : enum_type E) (e2 : enum_flags E) : enum_flags E :=
  enum_flags_from_enum (enum_binop op e1 (result (raw e2))).

(** [OPERATOR_OP (enum_flags<enum_type> e1, enum_flags<enum_type> e2)
     { return e1.raw () OP e2.raw (); }] *)
Definition flags_flags_binop (op : binop)
    (e1 e2 : enum_flags E) : enum_flags E :=
  enum_flags_from_enum (enum_binop op (result (raw e1)) (result (raw e2))).

(** *** Compound assignment on a raw enumeration variable (lines 225-236)

    [OPERATOR_OP (enum_type &e1, const enum_type &e2)
     { return e1 = e1 OP e2; }]
    The variable [e1] before the call is mapped to the returned
    reference's value and the variable after the call. *)
Definition enum_compound_assign (op : binop)
    (e1 e2 : enum_type E) : enum_type E * enum_type E :=
  let e1' := enum_binop op e1 e2 in (e1', e1').

(** The plain assignment [e1 = e] of the enumeration. *)
Definition enum_assign (e1 e : enum_type E) : enum_type E * enum_type E :=
  (e, e).

(** The underlying integer of a wrapper value. *)
Definition flags_value (f : enum_flags E) : Z :=
  result (operator_underlying_type f).

End EnumFlags.

Arguments to_enum {E} _.
Arguments enum_binop {E} _ _ _.
Arguments enum_not {E} _.
Arguments enum_flags_default {E} _.
Arguments enum_flags_from_enum {E} _.
Arguments enum_flags_from_zero {E} _.
Arguments result {E A} _.
Arguments object_after {E A} _.
Arguments operator_underlying_type {E} _.
Arguments raw {E} _.
Arguments operator_assign_op {E} _ _ _.
Arguments operator_and_assign {E} _ _.
Arguments operator_or_assign {E} _ _.
Arguments operator_xor_assign {E} _ _.
Arguments operator_not {E} _.
Arguments operator_assign {E} _ _.
Arguments flags_enum_binop {E} _ _ _.
Arguments enum_flags_binop {E} _ _ _.
Arguments flags_flags_binop {E} _ _ _.
Arguments enum_compound_assign {E} _ _ _.
Arguments enum_assign {E} _ _.
Arguments flags_value {E} _.

(** *** Initialisation without an initialiser

    How a wrapper comes to be when no constructor argument is given:
    [some_flags f;] with automatic storage (or [new some_flags])
    default-initialises; the same declaration with static storage is
    zero-initialised before; the expression [some_flags ()] (or
    [some_flags {}]) value-initialises. *)
Inductive initialization : Set :=
| DefaultInitialization
| StaticDefaultInitialization
| ValueInitialization.

(** Zero-initialisation of the object's storage: the one scalar member
    becomes [(enum_type) 0]. *)
Definition zero_initialize {E : enum_decl} (storage : enum_flags E) : enum_flags E :=
  EnumFlags (to_enum 0).

(** [enum_flags () = default;] is defaulted on its first declaration,
    so it is not user-provided: value-initialisation zero-initialises
    the storage and then runs the constructor, default-initialisation
    runs the constructor alone. *)
Definition initialize {E : enum_decl} (i : initialization)
    (storage : enum_flags E) : enum_flags E :=
  match i with
  | DefaultInitialization => enum_flags_default storage
  | StaticDefaultInitialization => enum_flags_default (zero_initialize storage)
  | ValueInitialization => enum_flags_default (zero_initialize storage)
  end.

(** The enumeration of the header's introduction. *)
Definition some_flag : enum_decl :=
  EnumDecl "some_flag" unsigned_int
    [("flag_val1", Z.shiftl 1 1); ("flag_val2", Z.shiftl 1 2);
     ("flag_val3", Z.shiftl 1 3); ("flag_val4", Z.shiftl 1 4)].

Definition flag_val1 : enum_type some_flag := EnumValue 2.
Definition flag_val2 : enum_type some_flag := EnumValue 4.
Definition flag_val3 : enum_type some_flag := EnumValue 8.
Definition flag_val4 : enum_type some_flag := EnumValue 16.

(** ** Types, operands and translation units *)

(** [#ifdef __cplusplus]: the language the header is compiled as. *)
Inductive language : Set := C | CPlusPlus.

(** The types overload resolution meets.  All integer types count as
    [TInt], so that [0], [0L] and [0u] are the same literal; an
    enumeration is named; a class is one without conversion functions
    or converting constructors. *)
Inductive type : Set :=
| TInt                      (* int, the type of an integer literal *)
| TEnum (name : string)     (* an unscoped enumeration *)
| TFlags (t : type)         (* enum_flags<t> *)
| TZeroPtr (t : type)       (* enum_flags<t>::zero_type * *)
| TClass (name : string)    (* some other class, with no conversions *)
| TRef (t : type)           (* t &, as deduced for a forwarding reference *)
| TUnique (n : nat)         (* the unique types of partial ordering *)
| TNullptr.                 (* std::nullptr_t, the type of nullptr *)

Fixpoint type_eqb (s t : type) : bool :=
  match s, t with
  | TInt, TInt => true
  | TEnum a, TEnum b => String.eqb a b
  | TFlags a, TFlags b => type_eqb a b
  | TZeroPtr a, TZeroPtr b => type_eqb a b
  | TClass a, TClass b => String.eqb a b
  | TRef a, TRef b => type_eqb a b
  | TUnique a, TUnique b => Nat.eqb a b
  | TNullptr, TNullptr => true
  | _, _ => false
  end.

(** An operand of an expression: an integer literal, a variable (an
    lvalue) or a temporary (an rvalue). *)
Inductive operand : Set :=
| Literal (n : Z)
| Var (t : type)
| Temp (t : type).

Definition type_of (x : operand) : type :=
  match x with
  | Literal _ => TInt
  | Var t | Temp t => t
  end.

Definition is_lvalue (x : operand) : bool :=
  match x with
  | Var _ => true
  | Literal _ | Temp _ => false
  end.

(** A translation unit, as far as the header is concerned: its language,
    its typedefs, and the specialisations of the trait
    [enum_flags_type<T>].  The primary template
    [template<typename T> struct enum_flags_type {};] has no member
    [type]; a specialisation for the enumeration named [e] is an entry
    [e |-> type]. *)
Record translation_unit : Type := TranslationUnit {
  tu_language : language;
  tu_typedefs : gmap string type;
  tu_enum_flags_type : gmap string type
}.

Definition empty_unit (l : language) : translation_unit :=
  TranslationUnit l ∅ ∅.

(** [#define ENABLE_ENUM_FLAGS_OPERATORS(enum_type)
      template<> struct enum_flags_type<enum_type>
      { typedef enum_flags<enum_type> type; }] *)
Definition ENABLE_ENUM_FLAGS_OPERATORS (enum_type : string)
    (tu : translation_unit) : translation_unit :=
  TranslationUnit (tu_language tu) (tu_typedefs tu)
    (<[enum_type := TFlags (TEnum enum_type)]> (tu_enum_flags_type tu)).

(** In C++: [typedef enum_flags<enum_type> flags_type;
             ENABLE_ENUM_FLAGS_OPERATORS(enum_type);]
    in C:   [typedef enum_type flags_type] *)
Definition DEF_ENUM_FLAGS_TYPE (enum_type flags_type : string)
    (tu : translation_unit) : translation_unit :=
  match tu_language tu with
  | CPlusPlus =>
      ENABLE_ENUM_FLAGS_OPERATORS enum_type
        (TranslationUnit (tu_language tu)
           (<[flags_type := TFlags (TEnum enum_type)]> (tu_typedefs tu))
           (tu_enum_flags_type tu))
  | C =>
      TranslationUnit (tu_language tu)
        (<[flags_type := TEnum enum_type]> (tu_typedefs tu))
        (tu_enum_flags_type tu)
  end.

(** [typename enum_flags_type<t>::type], when it exists. *)
Definition enum_flags_type (tu : translation_unit) (t : type) : option type :=
  match t with
  | TEnum e => tu_enum_flags_type tu !! e
  | _ => None
  end.

(** ** The header's operator declarations *)

Inductive operator_name : Set :=
| OpBinary (op : binop)       (* operator|, operator&, operator^ *)
| OpCompound (op : binop)     (* operator|=, operator&=, operator^= *)
| OpShiftLeft                 (* operator<< *)
| OpShiftRight.               (* operator>> *)

Definition binop_eqb (a b : binop) : bool :=
  match a, b with
  | OpOr, OpOr | OpAnd, OpAnd | OpXor, OpXor => true
  | _, _ => false
  end.

Definition operator_eqb (a b : operator_name) : bool :=
  match a, b with
  | OpBinary x, OpBinary y => binop_eqb x y
  | OpCompound x, OpCompound y => binop_eqb x y
  | OpShiftLeft, OpShiftLeft => true
  | OpShiftRight, OpShiftRight => true
  | _, _ => false
  end.

(** The two template parameters of the operator templates: [enum_type],
    and the second one, called [unrelated_type], [other_enum_type] or
    [any_type]. *)
Inductive template_parameter : Set := enum_type_param | other_param.

(** A function parameter's type: a template parameter [T], or
    [enum_flags<T>]. *)
Inductive parameter_type : Set :=
| Param (p : template_parameter)
| ParamFlags (p : template_parameter).

(** How the parameter is passed: [T], [const T &], [T &], [T &&]. *)
Inductive passing : Set := ByValue | ByConstRef | ByLvalueRef | ByForwardingRef.

(** The return types the header uses:
    [typename enum_flags_type<enum_type>::type],
    [typename enum_flags_type<enum_type>::type::enum_type] and
    [typename enum_flags_type<enum_type>::type::enum_type &]. *)
Inductive return_type : Set := RetFlags | RetEnum | RetEnumRef.

Record declaration : Set := Declaration {
  d_operator : operator_name;
  d_param1 : passing * parameter_type;
  d_param2 : passing * parameter_type;
  d_return : return_type;
  d_deleted : bool
}.

(** [ENUM_FLAGS_GEN_BINOP(OPERATOR_OP, OP)], lines 159-204, in the
    order of the macro. *)
Definition binop_enum_enum (op : binop) : declaration :=
  Declaration (OpBinary op) (ByValue, Param enum_type_param)
    (ByValue, Param enum_type_param) RetEnum false.
Definition binop_flags_enum (op : binop) : declaration :=
  Declaration (OpBinary op) (ByValue, ParamFlags enum_type_param)
    (ByValue, Param enum_type_param) RetFlags false.
Definition binop_enum_flags (op : binop) : declaration :=
  Declaration (OpBinary op) (ByValue, Param enum_type_param)
    (ByValue, ParamFlags enum_type_param) RetFlags false.
Definition binop_flags_flags (op : binop) : declaration :=
  Declaration (OpBinary op) (ByValue, ParamFlags enum_type_param)
    (ByValue, ParamFlags enum_type_param) RetFlags false.
Definition binop_enum_unrelated (op : binop) : declaration :=
  Declaration (OpBinary op) (ByValue, Param enum_type_param)
    (ByValue, Param other_param) RetFlags true.
Definition binop_unrelated_enum (op : binop) : declaration :=
  Declaration (OpBinary op) (ByValue, Param other_param)
    (ByValue, Param enum_type_param) RetFlags true.
Definition binop_flags_unrelated (op : binop) : declaration :=
  Declaration (OpBinary op) (ByValue, ParamFlags enum_type_param)
    (ByValue, Param other_param) RetFlags true.
Definition binop_unrelated_flags (op : binop) : declaration :=
  Declaration (OpBinary op) (ByValue, Param other_param)
    (ByValue, ParamFlags enum_type_param) RetFlags true.

Definition ENUM_FLAGS_GEN_BINOP (op : binop) : list declaration :=
  [binop_enum_enum op; binop_flags_enum op; binop_enum_flags op;
   binop_flags_flags op; binop_enum_unrelated op; binop_unrelated_enum op;
   binop_flags_unrelated op; binop_unrelated_flags op].

(** [ENUM_FLAGS_GEN_COMPOUND_ASSIGN(OPERATOR_OP, OP)], lines 225-246. *)
Definition compound_lval (op : binop) : declaration :=
  Declaration (OpCompound op) (ByLvalueRef, Param enum_type_param)
    (ByConstRef, Param enum_type_param) RetEnumRef false.
Definition compound_rval (op : binop) : declaration :=
  Declaration (OpCompound op) (ByForwardingRef, Param enum_type_param)
    (ByConstRef, Param enum_type_param) RetEnumRef false.
Definition compound_lval_other (op : binop) : declaration :=
  Declaration (OpCompound op) (ByLvalueRef, Param enum_type_param)
    (ByConstRef, Param other_param) RetEnumRef true.
Definition compound_rval_other (op : binop) : declaration :=
  Declaration (OpCompound op) (ByForwardingRef, Param enum_type_param)
    (ByConstRef, Param other_param) RetEnumRef true.

Definition ENUM_FLAGS_GEN_COMPOUND_ASSIGN (op : binop) : list declaration :=
  [compound_lval op; compound_rval op;
   compound_lval_other op; compound_rval_other op].

(** The deleted [operator<<] and [operator>>], lines 266-282. *)
Definition shift_enum_any (o : operator_name) : declaration :=
  Declaration o (ByConstRef, Param enum_type_param)
    (ByConstRef, Param other_param) RetFlags true.
Definition shift_flags_any (o : operator_name) : declaration :=
  Declaration o (ByConstRef, ParamFlags enum_type_param)
    (ByConstRef, Param other_param) RetFlags true.

(** Everything the C++ half of the header declares at namespace scope,
    lines 248-282. *)
Definition header_declarations : list declaration :=
  ENUM_FLAGS_GEN_BINOP OpOr ++ ENUM_FLAGS_GEN_BINOP OpAnd ++
  ENUM_FLAGS_GEN_BINOP OpXor ++
  ENUM_FLAGS_GEN_COMPOUND_ASSIGN OpOr ++ ENUM_FLAGS_GEN_COMPOUND_ASSIGN OpAnd ++
  ENUM_FLAGS_GEN_COMPOUND_ASSIGN OpXor ++
  [shift_enum_any OpShiftLeft; shift_flags_any OpShiftLeft;
   shift_enum_any OpShiftRight; shift_flags_any OpShiftRight].

(** What an expression can call: one of the templates above, a member
    [enum_flags &operator OP= (enum_flags e)] of the class (lines
    117-131), a constructor of the class, given by its parameter's
    type, or what the language has built in. *)
Inductive candidate : Set :=
| Template (d : declaration)
| MemberCompound (op : binop)
| Constructor (param : type)
| BuiltIn.

(** The parameter types of the class's converting constructors, lines
    110-115. *)
Definition converting_constructors (E : type) : list type :=
  [E; TZeroPtr E].

(** ** Implicit conversions *)

(** The ranks of implicit conversion sequences, best first. *)
Inductive rank : Set := ExactMatch | Promotion | Conversion | UserDefined.

Definition rank_index (r : rank) : nat :=
  match r with
  | ExactMatch => 0
  | Promotion => 1
  | Conversion => 2
  | UserDefined => 3
  end.

Definition rank_leb (r s : rank) : bool := Nat.leb (rank_index r) (rank_index s).
Definition rank_ltb (r s : rank) : bool := Nat.ltb (rank_index r) (rank_index s).

(** Standard conversions: identity; an unscoped enumeration to an
    integer type; a null pointer constant, which is an integer literal
    of value zero or an operand of type [std::nullptr_t] such as
    [nullptr], to a pointer type.  There is none from an integer or
    from another enumeration to an enumeration. *)
Definition standard_conversion (x : operand) (to : type) : option rank :=
  if type_eqb (type_of x) to then Some ExactMatch
  else
    match to, x with
    | TInt, (Var (TEnum _) | Temp (TEnum _)) => Some Promotion
    | TZeroPtr _, Literal 0 => Some Conversion
    | TZeroPtr _, (Var TNullptr | Temp TNullptr) => Some Conversion
    | _, _ => None
    end.

(** The constructor that initialises an [enum_flags<E>] from [x], as the
    type of its parameter: the implicit copy constructor for an
    [enum_flags<E>], else the first converting constructor whose
    parameter [x] converts to by a standard conversion. *)
Definition select_constructor (E : type) (x : operand) : option type :=
  if type_eqb (type_of x) (TFlags E) then Some (TFlags E)
  else
    List.find (fun p => match standard_conversion x p with
                        | Some _ => true
                        | None => false
                        end)
      (converting_constructors E).

(** Implicit conversion of [x] to [to]: a standard conversion, or one
    user-defined conversion: a converting constructor of [enum_flags],
    or [operator underlying_type] (line 134) followed by a conversion
    between integer types. *)
Definition implicit_conversion (x : operand) (to : type) : option rank :=
  match standard_conversion x to with
  | Some r => Some r
  | None =>
      match to, type_of x with
      | TFlags (TEnum e), _ =>
          match select_constructor (TEnum e) x with
          | Some _ => Some UserDefined
          | None => None
          end
      | TInt, TFlags (TEnum _) => Some UserDefined
      | _, _ => None
      end
  end.

(** ** Template argument deduction *)

Record substitution : Set := Substitution {
  s_enum_type : option type;
  s_other : option type
}.

Definition bind (p : template_parameter) (t : type) (s : substitution) :
    option substitution :=
  match p with
  | enum_type_param =>
      match s_enum_type s with
      | None => Some (Substitution (Some t) (s_other s))
      | Some t' => if type_eqb t t' then Some s else None
      end
  | other_param =>
      match s_other s with
      | None => Some (Substitution (s_enum_type s) (Some t))
      | Some t' => if type_eqb t t' then Some s else None
      end
  end.

(** Deduction from one parameter: no conversion is considered, an
    argument that is not an [enum_flags<...>] does not match
    [enum_flags<T>]. *)
Definition deduce_parameter (P : parameter_type) (A : type)
    (s : substitution) : option substitution :=
  match P, A with
  | Param p, _ => bind p A s
  | ParamFlags p, TFlags t => bind p t s
  | ParamFlags _, _ => None
  end.

Definition deduce (P1 P2 : parameter_type) (A1 A2 : type) : option substitution :=
  match deduce_parameter P1 A1 (Substitution None None) with
  | Some s => deduce_parameter P2 A2 s
  | None => None
  end.

(** The argument type deduction starts from: for a forwarding reference
    [T &&] and an lvalue argument of type [A] it is [A &]. *)
Definition argument_type (pass : passing) (x : operand) : type :=
  match pass with
  | ByForwardingRef => if is_lvalue x then TRef (type_of x) else type_of x
  | _ => type_of x
  end.

(** A non-const lvalue reference binds to lvalues only. *)
Definition binds (pass : passing) (x : operand) : bool :=
  match pass with
  | ByLvalueRef => is_lvalue x
  | _ => true
  end.

(** Substitution into the return type.  It fails, and removes the
    template from the candidates, when [enum_flags_type<enum_type>] has
    no member [type]. *)
Definition substitute_return (tu : translation_unit) (r : return_type)
    (s : substitution) : option type :=
  match s_enum_type s with
  | None => None
  | Some T =>
      match enum_flags_type tu T with
      | None => None
      | Some F =>
          match r, F with
          | RetFlags, _ => Some F
          | (RetEnum | RetEnumRef), TFlags E => Some E
          | _, _ => None
          end
      end
  end.

(** ** Candidates and the best viable function *)

Record viable : Set := Viable {
  v_candidate : candidate;
  v_rank1 : rank;
  v_rank2 : rank;
  v_result : type
}.

(** A template whose arguments are deduced takes its arguments as they
    are: both conversions are identities. *)
Definition template_candidate (tu : translation_unit) (d : declaration)
    (a b : operand) : option viable :=
  if binds (fst (d_param1 d)) a && binds (fst (d_param2 d)) b then
    match deduce (snd (d_param1 d)) (snd (d_param2 d))
            (argument_type (fst (d_param1 d)) a)
            (argument_type (fst (d_param2 d)) b) with
    | None => None
    | Some s =>
        match substitute_return tu (d_return d) s with
        | None => None
        | Some r => Some (Viable (Template d) ExactMatch ExactMatch r)
        end
    end
  else None.

(** [a OP= b] with [a] an [enum_flags<E>]: the member takes its
    argument by value, converted to [enum_flags<E>]. *)
Definition member_candidate (o : operator_name) (a b : operand) : option viable :=
  match o, type_of a with
  | OpCompound op, TFlags (TEnum e) =>
      match implicit_conversion b (TFlags (TEnum e)) with
      | Some r => Some (Viable (MemberCompound op) ExactMatch r (TFlags (TEnum e)))
      | None => None
      end
  | _, _ => None
  end.

(** The built-in operators work on integers: both operands must convert
    to an integer type, and the left operand of a compound assignment
    must be an integer lvalue. *)
Definition builtin_candidate (o : operator_name) (a b : operand) : option viable :=
  match o with
  | OpCompound _ =>
      if is_lvalue a && type_eqb (type_of a) TInt then
        match implicit_conversion b TInt with
        | Some r => Some (Viable BuiltIn ExactMatch r TInt)
        | None => None
        end
      else None
  | _ =>
      match implicit_conversion a TInt, implicit_conversion b TInt with
      | Some r1, Some r2 => Some (Viable BuiltIn r1 r2 TInt)
      | _, _ => None
      end
  end.

Definition option_to_list {A : Type} (o : option A) : list A :=
  match o with
  | Some a => [a]
  | None => []
  end.

Definition candidates (tu : translation_unit) (o : operator_name)
    (a b : operand) : list viable :=
  flat_map (fun d => if operator_eqb (d_operator d) o
                     then option_to_list (template_candidate tu d a b)
                     else [])
    header_declarations
  ++ option_to_list (member_candidate o a b)
  ++ option_to_list (builtin_candidate o a b).

(** Partial ordering of function templates: [d1] is at least as
    specialised as [d2] when [d2]'s parameters can be deduced from
    [d1]'s, with a unique type in place of each template parameter. *)
Definition unique_type (p : template_parameter) : type :=
  match p with
  | enum_type_param => TUnique 0
  | other_param => TUnique 1
  end.

Definition with_unique_types (P : parameter_type) : type :=
  match P with
  | Param p => unique_type p
  | ParamFlags p => TFlags (unique_type p)
  end.

Definition at_least_as_specialized (d1 d2 : declaration) : bool :=
  match deduce (snd (d_param1 d2)) (snd (d_param2 d2))
          (with_unique_types (snd (d_param1 d1)))
          (with_unique_types (snd (d_param2 d1))) with
  | Some _ => true
  | None => false
  end.

Definition more_specialized (d1 d2 : declaration) : bool :=
  at_least_as_specialized d1 d2 && negb (at_least_as_specialized d2 d1).

(** [v] is a better candidate than [w]: no worse conversion for either
    argument, and a better one for some argument, or else a non-template
    against a template, or else the more specialised template. *)
Definition better (v w : viable) : bool :=
  rank_leb (v_rank1 v) (v_rank1 w) && rank_leb (v_rank2 v) (v_rank2 w) &&
  (rank_ltb (v_rank1 v) (v_rank1 w) || rank_ltb (v_rank2 v) (v_rank2 w) ||
   match v_candidate v, v_candidate w with
   | Template d1, Template d2 => more_specialized d1 d2
   | Template _, _ => false
   | _, Template _ => true
   | _, _ => false
   end).

(** The candidates that are better than every other one. *)
Fixpoint best_viable (before after : list viable) : list viable :=
  match after with
  | [] => []
  | v :: rest =>
      (if forallb (better v) (before ++ rest) then [v] else [])
      ++ best_viable (before ++ [v]) rest
  end.

Definition is_deleted (c : candidate) : bool :=
  match c with
  | Template d => d_deleted d
  | _ => false
  end.

Inductive rejection : Set :=
| NoViableFunction     (* no candidate, or no conversion *)
| AmbiguousCall        (* no best candidate *)
| DeletedFunction.     (* the best candidate is defined as deleted *)

(** What the compiler makes of an expression: the function it calls and
    the expression's type, or the reason the program is ill-formed. *)
Inductive outcome : Set :=
| WellFormed (c : candidate) (result : type)
| IllFormed (r : rejection).

Definition resolve (tu : translation_unit) (o : operator_name)
    (a b : operand) : outcome :=
  match candidates tu o a b with
  | [] => IllFormed NoViableFunction
  | vs =>
      match best_viable [] vs with
      | [v] =>
          if is_deleted (v_candidate v) then IllFormed DeletedFunction
          else WellFormed (v_candidate v) (v_result v)
      | _ => IllFormed AmbiguousCall
      end
  end.

(** ** Programs *)

(** The uses of a flags type the header rules on: an initialisation or
    assignment [target f = x], and a binary expression [a o b]. *)
Inductive attempt : Set :=
| Initialize (target : type) (x : operand)
| Binary (o : operator_name) (a b : operand).

Definition cplusplus_check (tu : translation_unit) (p : attempt) : outcome :=
  match p with
  | Initialize (TFlags (TEnum e)) x =>
      match select_constructor (TEnum e) x with
      | Some param => WellFormed (Constructor param) (TFlags (TEnum e))
      | None => IllFormed NoViableFunction
      end
  | Initialize target x =>
      match implicit_conversion x target with
      | Some _ => WellFormed BuiltIn target
      | None => IllFormed NoViableFunction
      end
  | Binary o a b => resolve tu o a b
  end.

(** In C the header declares nothing but the typedef, and the language
    decides alone: integers and enumerations are arithmetic types, they
    initialise each other and are operands of every operator here. *)
Definition c_arithmetic (t : type) : bool :=
  match t with
  | TInt | TEnum _ => true
  | _ => false
  end.

Definition c_check (p : attempt) : outcome :=
  match p with
  | Initialize target x =>
      if c_arithmetic target && c_arithmetic (type_of x)
      then WellFormed BuiltIn target
      else IllFormed NoViableFunction
  | Binary (OpCompound _) a b =>
      if is_lvalue a && c_arithmetic (type_of a) && c_arithmetic (type_of b)
      then WellFormed BuiltIn (type_of a)
      else IllFormed NoViableFunction
  | Binary _ a b =>
      if c_arithmetic (type_of a) && c_arithmetic (type_of b)
      then WellFormed BuiltIn TInt
      else IllFormed NoViableFunction
  end.

Definition check (tu : translation_unit) (p : attempt) : outcome :=
  match tu_language tu with
  | CPlusPlus => cplusplus_check tu p
  | C => c_check p
  end.

Definition ill_formed (tu : translation_unit) (p : attempt) : bool :=
  match check tu p with
  | IllFormed _ => true
  | WellFormed _ _ => false
  end.

(** The type of the enumeration [E] and of its wrapper. *)
Definition enum_type_of (E : enum_decl) : type := TEnum (enum_name E).
Definition flags_type_of (E : enum_decl) : type := TFlags (TEnum (enum_name E)).

(** [E] is a flags enum of the unit: [enum_flags_type<E>] is specialised
    as the enabling macro does it. *)
Definition flags_enum (tu : translation_unit) (e : string) : Prop :=
  tu_language tu = CPlusPlus /\
  tu_enum_flags_type tu !! e = Some (TFlags (TEnum e)).

(** An operand that is a flags value of the flags enum [e]: of the
    enumeration itself or of its wrapper. *)
Definition flags_operand (tu : translation_unit) (e : string) (x : operand) : Prop :=
  flags_enum tu e /\
  (type_of x = TEnum e \/ type_of x = TFlags (TEnum e)).

(** An operand of an enumeration [e], raw or wrapped, flags enum or not. *)
Definition enum_operand (e : string) (x : operand) : Prop :=
  type_of x = TEnum e \/ type_of x = TFlags (TEnum e).

(** An operand of a type that has nothing to do with enumerations. *)
Definition unrelated_operand (x : operand) : Prop :=
  type_of x = TInt \/ exists c, type_of x = TClass c.

Definition shift (o : operator_name) : Prop :=
  o = OpShiftLeft \/ o = OpShiftRight.

(** The four kinds of rejected use in the header's own terms:
    (a) a non-zero literal assigned to a flags variable,
    (b) values of two different enumerations combined bitwise,
    (c) a flags value combined with an unrelated type,
    (d) a flags value shifted, whatever the right operand. *)
Inductive listed (tu : translation_unit) : attempt -> Prop :=
| listed_literal e n :
    n <> 0 ->
    listed tu (Initialize (TFlags (TEnum e)) (Literal n))
| listed_two_enums_l op e1 e2 a b :
    e1 <> e2 -> flags_operand tu e1 a -> enum_operand e2 b ->
    listed tu (Binary (OpBinary op) a b)
| listed_two_enums_r op e1 e2 a b :
    e1 <> e2 -> enum_operand e1 a -> flags_operand tu e2 b ->
    listed tu (Binary (OpBinary op) a b)
| listed_unrelated_l op e a b :
    flags_operand tu e a -> unrelated_operand b ->
    listed tu (Binary (OpBinary op) a b)
| listed_unrelated_r op e a b :
    unrelated_operand a -> flags_operand tu e b ->
    listed tu (Binary (OpBinary op) a b)
| listed_shift o e a b :
    shift o -> flags_operand tu e a ->
    listed tu (Binary o a b).

(** ** Reachable flags values *)

(** [or_of_constants E z]: [z] is the bitwise OR of zero or more of the
    enumerators of [E]. *)
Definition or_of_constants (E : enum_decl) (z : Z) : Prop :=
  exists l : list Z,
    Forall (fun c => In c (enumerator_values E)) l /\
    fold_right Z.lor 0 l = z.

(** The values of the enumeration and of the wrapper that the public
    operations produce from the enumerators and the literal zero.
    [with_not] says whether [~] is among the operations. *)
Inductive reachable_enum (E : enum_decl) (with_not : bool) : enum_type E -> Prop :=
| reach_enumerator c :
    In c (enumerator_values E) -> reachable_enum E with_not (EnumValue c)
| reach_raw f :
    reachable_flags E with_not f -> reachable_enum E with_not (result (raw f))
| reach_enum_binop op e1 e2 :
    reachable_enum E with_not e1 -> reachable_enum E with_not e2 ->
    reachable_enum E with_not (enum_binop op e1 e2)
| reach_enum_not e :
    with_not = true -> reachable_enum E with_not e ->
    reachable_enum E with_not (enum_not e)
| reach_enum_compound op e1 e2 :
    reachable_enum E with_not e1 -> reachable_enum E with_not e2 ->
    reachable_enum E with_not (snd (enum_compound_assign op e1 e2))
with reachable_flags (E : enum_decl) (with_not : bool) : enum_flags E -> Prop :=
| reach_from_enum e :
    reachable_enum E with_not e -> reachable_flags E with_not (enum_flags_from_enum e)
| reach_from_zero :
    reachable_flags E with_not (enum_flags_from_zero null_zero_type)
| reach_flags_enum op f e :
    reachable_flags E with_not f -> reachable_enum E with_not e ->
    reachable_flags E with_not (flags_enum_binop op f e)
| reach_enum_flags op e f :
    reachable_enum E with_not e -> reachable_flags E with_not f ->
    reachable_flags E with_not (enum_flags_binop op e f)
| reach_flags_flags op f g :
    reachable_flags E with_not f -> reachable_flags E with_not g ->
    reachable_flags E with_not (flags_flags_binop op f g)
| reach_not f :
    with_not = true -> reachable_flags E with_not f ->
    reachable_flags E with_not (result (operator_not f))
| reach_compound op f g :
    reachable_flags E with_not f -> reachable_flags E with_not g ->
    reachable_flags E with_not (object_after (operator_assign_op op g f)).

(** Every enumerator is a single bit, a power of two. *)
Definition single_bit_enumerators (E : enum_decl) : Prop :=
  Forall (fun c => exists k, 0 <= k /\ c = 2 ^ k) (enumerator_values E).

(** Every enumerator is a value of the underlying type. *)
Definition enumerators_in_range (E : enum_decl) : Prop :=
  Forall (in_range (enum_underlying E)) (enumerator_values E).

(** The enumeration [{A = 1 << 1, B = 1 << 2, C = 1 << 3}]. *)
Definition abc_flag : enum_decl :=
  EnumDecl "abc_flag" unsigned_int
    [("A", Z.shiftl 1 1); ("B", Z.shiftl 1 2); ("C", Z.shiftl 1 3)].

(** An enumeration with enumerators of more than one bit. *)
Definition two_bit_flag : enum_decl :=
  EnumDecl "two_bit_flag" unsigned_int [("low", 3); ("high", 5)].

Scheme reachable_enum_mut := Minimality for reachable_enum Sort Prop
  with reachable_flags_mut := Minimality for reachable_flags Sort Prop.
Combined Scheme reachable_mutind from reachable_enum_mut, reachable_flags_mut.

(** All enumerators of [E] ORed together: the bits that some enumerator
    has. *)
Definition all_enumerators (E : enum_decl) : Z :=
  fold_right Z.lor 0 (enumerator_values E).

(** [z] is a value of the underlying type with no bit outside the
    enumerators. *)
Definition within_enumerators (E : enum_decl) (z : Z) : Prop :=
  in_range (enum_underlying E) z /\
  forall i, 0 <= i -> Z.testbit z i = true -> Z.testbit (all_enumerators E) i = true.

(** The enumerators whose bits are all set in [z]. *)
Definition selected_enumerators (E : enum_decl) (z : Z) : list Z :=
  List.filter (fun c => Z.land c z =? c) (enumerator_values E).

(** An operand of type [t] of either value category. *)
Definition operand_of (lvalue : bool) (t : type) : operand :=
  if lvalue then Var t else Temp t.

(** A C++ unit that declares two flags enums as the header's
    introduction does, and a C unit that does the same. *)
Definition example_unit : translation_unit :=
  DEF_ENUM_FLAGS_TYPE "other_flag" "other_flags"
    (DEF_ENUM_FLAGS_TYPE "some_flag" "some_flags" (empty_unit CPlusPlus)).

Definition example_c_unit : translation_unit :=
  DEF_ENUM_FLAGS_TYPE "some_flag" "some_flags" (empty_unit C).

(** ** Unary [~] *)

(** What [~x] can call: the global template of lines 258-264, the
    member of lines 146-147, or the built-in operator. *)
Inductive not_candidate : Set := NotTemplate | NotMember | NotBuiltIn.

Definition not_candidate_eqb (c d : not_candidate) : bool :=
  match c, d with
  | NotTemplate, NotTemplate | NotMember, NotMember | NotBuiltIn, NotBuiltIn => true
  | _, _ => false
  end.

(** [template <typename enum_type>
     constexpr typename enum_flags_type<enum_type>::type::enum_type
     operator~ (enum_type e)]: the argument is taken as it is, and the
    template is a candidate only where the trait has a member [type]. *)
Definition not_template_candidate (tu : translation_unit) (x : operand) :
    option (not_candidate * rank * type) :=
  match deduce_parameter (Param enum_type_param) (type_of x)
          (Substitution None None) with
  | Some s =>
      match substitute_return tu RetEnum s with
      | Some r => Some (NotTemplate, ExactMatch, r)
      | None => None
      end
  | None => None
  end.

(** [constexpr enum_flags operator~ () const] of [enum_flags<E>]. *)
Definition not_member_candidate (x : operand) : option (not_candidate * rank * type) :=
  match type_of x with
  | TFlags (TEnum e) => Some (NotMember, ExactMatch, TFlags (TEnum e))
  | _ => None
  end.

(** The built-in [~] on an operand that converts to an integer. *)
Definition not_builtin_candidate (x : operand) : option (not_candidate * rank * type) :=
  match implicit_conversion x TInt with
  | Some r => Some (NotBuiltIn, r, TInt)
  | None => None
  end.

Definition not_candidates (tu : translation_unit) (x : operand) :
    list (not_candidate * rank * type) :=
  option_to_list (not_template_candidate tu x)
  ++ option_to_list (not_member_candidate x)
  ++ option_to_list (not_builtin_candidate x).

(** A better conversion of the one argument, or else a non-template
    against the template. *)
Definition not_better (v w : not_candidate * rank * type) : bool :=
  rank_leb (snd (fst v)) (snd (fst w)) &&
  (rank_ltb (snd (fst v)) (snd (fst w)) ||
   match fst (fst v), fst (fst w) with
   | NotTemplate, _ => false
   | _, NotTemplate => true
   | _, _ => false
   end).

(** The function [~x] calls and the type of [~x], when there is a best
    candidate (none of the three is deleted). *)
Definition check_not (tu : translation_unit) (x : operand) :
    option (not_candidate * type) :=
  let vs := not_candidates tu x in
  match List.filter
          (fun v => forallb (fun w => not_candidate_eqb (fst (fst v)) (fst (fst w))
                                      || not_better v w) vs) vs with
  | [v] => Some (fst (fst v), snd v)
  | _ => None
  end.

(** The type [t] involves no flags enum of the unit: the trait has no
    member [type] for [t], nor for [t'] when [t] is [enum_flags<t'>]. *)
Definition has_no_flags_enum (tu : translation_unit) (t : type) : Prop :=
  enum_flags_type tu t = None /\
  forall t', t = TFlags t' -> enum_flags_type tu t' = None.

(** ** Arithmetic of the integer types *)

Lemma modulus_double (t : underlying_type) : modulus t = 2 * half_modulus t.
Proof.
  unfold modulus, half_modulus.
  replace (Z.pos (ut_bits t)) with (Z.succ (Z.pos (ut_bits t) - 1)) at 1 by lia.
  rewrite Z.pow_succ_r by lia. reflexivity.
Qed.

Lemma half_modulus_pos (t : underlying_type) : 0 < half_modulus t.
Proof. unfold half_modulus. apply Z.pow_pos_nonneg; lia. Qed.

Lemma modulus_pos (t : underlying_type) : 0 < modulus t.
Proof. rewrite modulus_double. pose proof (half_modulus_pos t). lia. Qed.

Lemma in_rangeb_spec (t : underlying_type) (z : Z) :
  in_rangeb t z = true <-> in_range t z.
Proof. unfold in_rangeb, in_range. rewrite andb_true_iff, !Z.leb_le. tauto. Qed.

Lemma in_range_zero (t : underlying_type) : in_range t 0.
Proof.
  unfold in_range, ut_min, ut_max.
  pose proof (modulus_double t). pose proof (half_modulus_pos t).
  destruct (ut_signed t); lia.
Qed.

Lemma convert_to_in_range (t : underlying_type) (z : Z) :
  in_range t z -> convert_to t z = z.
Proof.
  unfold in_range, convert_to, ut_min, ut_max.
  pose proof (modulus_double t). pose proof (half_modulus_pos t).
  destruct (ut_signed t); intros Hz.
  - rewrite Z.mod_small by lia. lia.
  - apply Z.mod_small. lia.
Qed.

Lemma convert_to_range (t : underlying_type) (z : Z) :
  in_range t (convert_to t z).
Proof.
  unfold in_range, convert_to, ut_min, ut_max.
  pose proof (modulus_double t). pose proof (half_modulus_pos t).
  destruct (ut_signed t).
  - pose proof (Z.mod_pos_bound (z + half_modulus t) (modulus t)). lia.
  - pose proof (Z.mod_pos_bound z (modulus t)). lia.
Qed.

(** A conversion changes its argument by a multiple of the modulus. *)
Lemma convert_to_multiple (t : underlying_type) (z : Z) :
  exists k, convert_to t z = z + k * modulus t.
Proof.
  pose proof (modulus_pos t) as Hm. unfold convert_to.
  destruct (ut_signed t).
  - exists (- ((z + half_modulus t) / modulus t)).
    rewrite Z.mod_eq by lia. lia.
  - exists (- (z / modulus t)). rewrite Z.mod_eq by lia. lia.
Qed.

Lemma convert_to_add_multiple (t : underlying_type) (z k : Z) :
  convert_to t (z + k * modulus t) = convert_to t z.
Proof.
  unfold convert_to. destruct (ut_signed t).
  - replace (z + k * modulus t + half_modulus t)
      with (z + half_modulus t + k * modulus t) by lia.
    rewrite Z_mod_plus_full. reflexivity.
  - rewrite Z_mod_plus_full. reflexivity.
Qed.

(** A conversion keeps the bits that the type has. *)
Lemma convert_to_testbit (t : underlying_type) (z i : Z) :
  0 <= i < Z.pos (ut_bits t) ->
  Z.testbit (convert_to t z) i = Z.testbit z i.
Proof.
  intros Hi. destruct (convert_to_multiple t z) as [k ->].
  rewrite <- (Z.mod_pow2_bits_low (z + k * modulus t) (Z.pos (ut_bits t))) by lia.
  rewrite <- (Z.mod_pow2_bits_low z (Z.pos (ut_bits t))) by lia.
  unfold modulus. rewrite Z_mod_plus_full. reflexivity.
Qed.

Lemma range_shiftr_unsigned (n z : Z) :
  0 <= n -> (0 <= z < 2 ^ n <-> Z.shiftr z n = 0).
Proof.
  intros Hn. rewrite Z.shiftr_div_pow2 by lia.
  assert (0 < 2 ^ n) by (apply Z.pow_pos_nonneg; lia).
  split; intros Hz.
  - apply Z.div_small. lia.
  - apply Z.div_small_iff in Hz; lia.
Qed.

Lemma range_shiftr_signed (n z : Z) :
  0 <= n -> (- 2 ^ n <= z < 2 ^ n <-> Z.shiftr z n = 0 \/ Z.shiftr z n = -1).
Proof.
  intros Hn. rewrite Z.shiftr_div_pow2 by lia.
  assert (0 < 2 ^ n) by (apply Z.pow_pos_nonneg; lia).
  split; intros Hz.
  - Z.div_mod_to_equations. nia.
  - Z.div_mod_to_equations. nia.
Qed.

Lemma shiftr_Z_binop (op : binop) (a b n : Z) :
  Z.shiftr (Z_binop op a b) n = Z_binop op (Z.shiftr a n) (Z.shiftr b n).
Proof.
  destruct op; simpl.
  - apply Z.shiftr_lor.
  - apply Z.shiftr_land.
  - apply Z.shiftr_lxor.
Qed.

(** The range of an integer type is closed under [|], [&] and [^]. *)
Lemma in_range_Z_binop (op : binop) (t : underlying_type) (a b : Z) :
  in_range t a -> in_range t b -> in_range t (Z_binop op a b).
Proof.
  unfold in_range, ut_min, ut_max, modulus, half_modulus.
  destruct (ut_signed t); intros Ha Hb.
  - assert (Hn : 0 <= Z.pos (ut_bits t) - 1) by lia.
    pose proof (proj1 (range_shiftr_signed _ a Hn) ltac:(lia)) as Ha'.
    pose proof (proj1 (range_shiftr_signed _ b Hn) ltac:(lia)) as Hb'.
    assert (H : - 2 ^ (Z.pos (ut_bits t) - 1) <= Z_binop op a b
                < 2 ^ (Z.pos (ut_bits t) - 1)); [|lia].
    apply range_shiftr_signed; [lia|]. rewrite shiftr_Z_binop.
    destruct Ha' as [-> | ->], Hb' as [-> | ->], op; simpl; auto.
  - assert (Hn : 0 <= Z.pos (ut_bits t)) by lia.
    pose proof (proj1 (range_shiftr_unsigned _ a Hn) ltac:(lia)) as Ha'.
    pose proof (proj1 (range_shiftr_unsigned _ b Hn) ltac:(lia)) as Hb'.
    assert (H : 0 <= Z_binop op a b < 2 ^ Z.pos (ut_bits t)); [|lia].
    apply range_shiftr_unsigned; [lia|]. rewrite shiftr_Z_binop, Ha', Hb'.
    destruct op; reflexivity.
Qed.

(** The promoted type holds every value of the type. *)
Lemma in_range_promotion (t : underlying_type) (z : Z) :
  in_range t z -> in_range (integral_promotion t) z.
Proof.
  unfold integral_promotion.
  destruct (Z.ltb_spec (Z.pos (ut_bits t)) (Z.pos (ut_bits int))) as [Hlt|]; [|auto].
  unfold in_range, ut_min, ut_max, modulus, half_modulus. simpl in *.
  assert (Hle : 2 ^ Z.pos (ut_bits t) <= 2 ^ 31) by (apply Z.pow_le_mono_r; lia).
  assert (Hle' : 2 ^ (Z.pos (ut_bits t) - 1) <= 2 ^ 31) by (apply Z.pow_le_mono_r; lia).
  change (2 ^ (32 - 1)) with (2 ^ 31).
  destruct (ut_signed t); lia.
Qed.

Lemma builtin_binop_in_range (op : binop) (t : underlying_type) (a b : Z) :
  in_range t a -> in_range t b -> builtin_binop op t a b = Z_binop op a b.
Proof.
  intros Ha Hb. unfold builtin_binop. apply convert_to_in_range.
  apply in_range_Z_binop; apply in_range_promotion; assumption.
Qed.

(** Converting to the promoted type first does not change the result of
    a conversion to the type. *)
Lemma convert_to_promotion (t : underlying_type) (z : Z) :
  convert_to t (convert_to (integral_promotion t) z) = convert_to t z.
Proof.
  unfold integral_promotion.
  destruct (Z.ltb_spec (Z.pos (ut_bits t)) (Z.pos (ut_bits int))) as [Hlt|].
  - destruct (convert_to_multiple int z) as [k ->].
    assert (Hm : modulus int = 2 ^ (32 - Z.pos (ut_bits t)) * modulus t).
    { unfold modulus. simpl in *. rewrite <- Z.pow_add_r by lia. f_equal. lia. }
    rewrite Hm, Z.mul_assoc. apply convert_to_add_multiple.
  - apply convert_to_in_range, convert_to_range.
Qed.

(** ** The operators on values *)

Section Values.

Variable E : enum_decl.

Lemma enum_binop_underlying (op : binop) (e1 e2 : enum_type E) :
  in_range (enum_underlying E) (underlying e1) ->
  in_range (enum_underlying E) (underlying e2) ->
  underlying (enum_binop op e1 e2) = Z_binop op (underlying e1) (underlying e2).
Proof.
  intros H1 H2. unfold enum_binop, to_enum. simpl.
  rewrite builtin_binop_in_range by assumption.
  apply convert_to_in_range, in_range_Z_binop; assumption.
Qed.

Lemma enum_binop_range (op : binop) (e1 e2 : enum_type E) :
  in_range (enum_underlying E) (underlying (enum_binop op e1 e2)).
Proof. apply convert_to_range. Qed.

(** [~] on the enumeration is the complement, converted to the
    underlying type. *)
Lemma enum_not_underlying (e : enum_type E) :
  underlying (enum_not e) = convert_to (enum_underlying E) (Z.lnot (underlying e)).
Proof. unfold enum_not, to_enum, builtin_not. simpl. apply convert_to_promotion. Qed.

Lemma enum_not_range (e : enum_type E) :
  in_range (enum_underlying E) (underlying (enum_not e)).
Proof. apply convert_to_range. Qed.

Lemma enum_not_involutive (e : enum_type E) :
  in_range (enum_underlying E) (underlying e) ->
  underlying (enum_not (enum_not e)) = underlying e.
Proof.
  intros He. rewrite !enum_not_underlying.
  destruct (convert_to_multiple (enum_underlying E) (Z.lnot (underlying e))) as [k ->].
  replace (Z.lnot (Z.lnot (underlying e) + k * modulus (enum_underlying E)))
    with (underlying e + (- k) * modulus (enum_underlying E))
    by (unfold Z.lnot; lia).
  rewrite convert_to_add_multiple. apply convert_to_in_range, He.
Qed.

Lemma land_convert_lnot (t : underlying_type) (z : Z) :
  in_range t z -> Z.land z (convert_to t (Z.lnot z)) = 0.
Proof.
  intros Hz. apply Z.bits_inj'. intros i Hi.
  rewrite Z.land_spec, Z.bits_0.
  destruct (Z.ltb_spec i (Z.pos (ut_bits t))) as [Hlt | Hge].
  - rewrite convert_to_testbit, Z.lnot_spec by lia.
    apply andb_negb_r.
  - revert Hz. unfold in_range, convert_to, ut_min, ut_max, modulus, half_modulus.
    destruct (ut_signed t) eqn:Hs; intros Hz.
    + fold (half_modulus t). fold (modulus t).
      assert (Hn : in_range t (Z.lnot z)).
      { unfold in_range, ut_min, ut_max, half_modulus, Z.lnot. rewrite Hs. lia. }
      pose proof (convert_to_in_range t (Z.lnot z) Hn) as Hc.
      unfold convert_to in Hc. rewrite Hs in Hc. rewrite Hc.
      rewrite Z.lnot_spec by lia. apply andb_negb_r.
    + rewrite Z.mod_pow2_bits_high by lia. apply andb_false_r.
Qed.

End Values.

(** ** Which overload a binary expression selects *)

Lemma type_eqb_refl (t : type) : type_eqb t t = true.
Proof. induction t; simpl; auto using String.eqb_refl, Nat.eqb_refl. Qed.

Lemma type_eqb_eq (s t : type) : type_eqb s t = true <-> s = t.
Proof.
  split; [|intros ->; apply type_eqb_refl].
  revert t. induction s; intros [] H; simpl in H; try discriminate;
    try reflexivity; f_equal; auto.
  - apply String.eqb_eq, H.
  - apply String.eqb_eq, H.
  - apply Nat.eqb_eq, H.
Qed.

(** Evaluation of [check] when enumerations are known by name only:
    compute, and decide the comparisons of names from the context. *)
Ltac name_facts :=
  repeat match goal with
  | H : ?a <> ?b |- _ =>
      lazymatch type of a with
      | string =>
          first [ rewrite (proj2 (String.eqb_neq a b) H)
                | rewrite (proj2 (String.eqb_neq b a) (not_eq_sym H)) ]
      end
  | H : tu_enum_flags_type _ !! _ = _ |- _ => rewrite H
  | |- _ => rewrite String.eqb_refl
  end.

Ltac evaluate_check :=
  unfold ill_formed, check, cplusplus_check, resolve;
  repeat match goal with
  | H : tu_language _ = _ |- _ => rewrite H
  end;
  repeat (progress (cbn -[String.eqb]; name_facts)).

(** The same, with the conversions of the operands opened up where a
    comparison of names is inside them. *)
Ltac evaluate_check_conversions :=
  evaluate_check;
  repeat (progress (unfold implicit_conversion, select_constructor,
                      standard_conversion;
                    cbn -[String.eqb]; name_facts)).

Lemma binary_operator_selection (tu : translation_unit) (e : string)
    (op : binop) (l1 l2 : bool) :
  flags_enum tu e ->
  check tu (Binary (OpBinary op) (operand_of l1 (TFlags (TEnum e)))
              (operand_of l2 (TFlags (TEnum e))))
    = WellFormed (Template (binop_flags_flags op)) (TFlags (TEnum e)) /\
  check tu (Binary (OpBinary op) (operand_of l1 (TFlags (TEnum e)))
              (operand_of l2 (TEnum e)))
    = WellFormed (Template (binop_flags_enum op)) (TFlags (TEnum e)) /\
  check tu (Binary (OpBinary op) (operand_of l1 (TEnum e))
              (operand_of l2 (TFlags (TEnum e))))
    = WellFormed (Template (binop_enum_flags op)) (TFlags (TEnum e)) /\
  check tu (Binary (OpBinary op) (operand_of l1 (TEnum e))
              (operand_of l2 (TEnum e)))
    = WellFormed (Template (binop_enum_enum op)) (TEnum e).
Proof.
  intros [Hl Ht].
  repeat split; destruct op, l1, l2; evaluate_check; reflexivity.
Qed.

(** The compound assignments: a raw enumeration variable selects the
    header's global operator, a wrapper its member operator, which also
    takes a raw value or the literal zero through the constructors. *)
Lemma compound_assignment_selection (tu : translation_unit) (e : string)
    (op : binop) (l : bool) :
  flags_enum tu e ->
  check tu (Binary (OpCompound op) (Var (TEnum e)) (operand_of l (TEnum e)))
    = WellFormed (Template (compound_lval op)) (TEnum e) /\
  check tu (Binary (OpCompound op) (Temp (TEnum e)) (operand_of l (TEnum e)))
    = WellFormed (Template (compound_rval op)) (TEnum e) /\
  check tu (Binary (OpCompound op) (Var (TFlags (TEnum e)))
              (operand_of l (TFlags (TEnum e))))
    = WellFormed (MemberCompound op) (TFlags (TEnum e)) /\
  check tu (Binary (OpCompound op) (Var (TFlags (TEnum e))) (operand_of l (TEnum e)))
    = WellFormed (MemberCompound op) (TFlags (TEnum e)) /\
  check tu (Binary (OpCompound op) (Var (TFlags (TEnum e))) (Literal 0))
    = WellFormed (MemberCompound op) (TFlags (TEnum e)).
Proof.
  intros [Hl Ht].
  repeat split; destruct op, l; evaluate_check_conversions; reflexivity.
Qed.

Lemma example_unit_some_flag : flags_enum example_unit "some_flag".
Proof. split; reflexivity. Qed.

Lemma example_unit_other_flag : flags_enum example_unit "other_flag".
Proof. split; reflexivity. Qed.

(** ** The claims on values *)

Lemma flags_value_not (E : enum_decl) (f : enum_flags E) :
  flags_value (result (operator_not f)) = underlying (enum_not (m_enum_value f)).
Proof. reflexivity. Qed.

Lemma flags_value_binop (E : enum_decl) (op : binop) (f g : enum_flags E) :
  flags_value (flags_flags_binop op f g)
    = underlying (enum_binop op (m_enum_value f) (m_enum_value g)).
Proof. reflexivity. Qed.

(** C1.  For a flags enum [E] and operands of the four shapes (wrapper,
    wrapper), (wrapper, E), (E, wrapper) and (E, E), each of [|], [&]
    and [^] returns a value whose underlying integer is the bitwise OR,
    AND or XOR of the operands' underlying integers.  The expression
    selects the header's overload for its shape; the (E, E) overload
    has the raw enumeration as its type, the three others the
    wrapper. *)
Theorem binary_operators_are_bitwise (tu : translation_unit) (E : enum_decl)
    (op : binop) (f1 f2 : enum_flags E) (e1 e2 : enum_type E) :
  flags_enum tu (enum_name E) ->
  in_range (enum_underlying E) (flags_value f1) ->
  in_range (enum_underlying E) (flags_value f2) ->
  in_range (enum_underlying E) (underlying e1) ->
  in_range (enum_underlying E) (underlying e2) ->
  (flags_value (flags_flags_binop op f1 f2)
     = Z_binop op (flags_value f1) (flags_value f2) /\
   forall l1 l2,
     check tu (Binary (OpBinary op) (operand_of l1 (flags_type_of E))
                 (operand_of l2 (flags_type_of E)))
       = WellFormed (Template (binop_flags_flags op)) (flags_type_of E)) /\
  (flags_value (flags_enum_binop op f1 e2)
     = Z_binop op (flags_value f1) (underlying e2) /\
   forall l1 l2,
     check tu (Binary (OpBinary op) (operand_of l1 (flags_type_of E))
                 (operand_of l2 (enum_type_of E)))
       = WellFormed (Template (binop_flags_enum op)) (flags_type_of E)) /\
  (flags_value (enum_flags_binop op e1 f2)
     = Z_binop op (underlying e1) (flags_value f2) /\
   forall l1 l2,
     check tu (Binary (OpBinary op) (operand_of l1 (enum_type_of E))
                 (operand_of l2 (flags_type_of E)))
       = WellFormed (Template (binop_enum_flags op)) (flags_type_of E)) /\
  (underlying (enum_binop op e1 e2)
     = Z_binop op (underlying e1) (underlying e2) /\
   forall l1 l2,
     check tu (Binary (OpBinary op) (operand_of l1 (enum_type_of E))
                 (operand_of l2 (enum_type_of E)))
       = WellFormed (Template (binop_enum_enum op)) (enum_type_of E)).
Proof.
  intros Hflags Hf1 Hf2 He1 He2.
  unfold flags_type_of, enum_type_of.
  repeat split;
    try (intros l1 l2; apply (binary_operator_selection tu _ op l1 l2 Hflags));
    unfold flags_flags_binop, flags_enum_binop, enum_flags_binop, flags_value;
    simpl; apply enum_binop_underlying; assumption.
Qed.

Lemma binary_operators_are_bitwise_witness :
  flags_value (flags_enum_binop OpOr (enum_flags_from_enum flag_val1) flag_val4) = 18 /\
  check example_unit
    (Binary (OpBinary OpOr) (Var (TFlags (TEnum "some_flag"))) (Var (TEnum "some_flag")))
    = WellFormed (Template (binop_flags_enum OpOr)) (TFlags (TEnum "some_flag")).
Proof.
  destruct (binary_operators_are_bitwise example_unit some_flag OpOr
              (enum_flags_from_enum flag_val1) (enum_flags_from_enum flag_val2)
              flag_val3 flag_val4 example_unit_some_flag)
    as (_ & [Hv Ht] & _).
  - apply in_rangeb_spec; reflexivity.
  - apply in_rangeb_spec; reflexivity.
  - apply in_rangeb_spec; reflexivity.
  - apply in_rangeb_spec; reflexivity.
  - split; [exact Hv | exact (Ht true true)].
Defined.

(** [f = A | B; f |= C; f = 0;] on [{A = 1 << 1, B = 1 << 2, C = 1 << 3}]. *)
Example scenario_abc :
  let A : enum_type abc_flag := EnumValue (Z.shiftl 1 1) in
  let B : enum_type abc_flag := EnumValue (Z.shiftl 1 2) in
  let C : enum_type abc_flag := EnumValue (Z.shiftl 1 3) in
  let f1 := enum_flags_from_enum (enum_binop OpOr A B) in
  let f2 := object_after (operator_or_assign (enum_flags_from_enum C) f1) in
  let f3 := object_after (operator_assign (enum_flags_from_zero null_zero_type) f2) in
  flags_value f1 = 6 /\ flags_value f2 = 14 /\ flags_value f3 = 0.
Proof. repeat split. Qed.

(** C3.  The compound assignment [a OP= b] leaves [a] with the same
    underlying integer as [a = a OP b], for wrappers (the member
    operators) and for raw enumeration variables (the global
    operators). *)
Theorem compound_assignment_is_assignment_of_binop (E : enum_decl) (op : binop)
    (a b : enum_flags E) (x y : enum_type E) :
  flags_value (object_after (operator_assign_op op b a))
    = flags_value (object_after (operator_assign (flags_flags_binop op a b) a)) /\
  underlying (snd (enum_compound_assign op x y))
    = underlying (snd (enum_assign x (enum_binop op x y))).
Proof. split; reflexivity. Qed.

(** C5.  [~] computes the one's complement of the underlying integer:
    every bit of the underlying type is inverted.  Applied twice to a
    wrapper it gives back the wrapper's underlying integer. *)
Theorem double_not_is_identity (E : enum_decl) (f : enum_flags E) :
  in_range (enum_underlying E) (flags_value f) ->
  flags_value (result (operator_not (result (operator_not f)))) = flags_value f /\
  forall i, 0 <= i < Z.pos (ut_bits (enum_underlying E)) ->
    Z.testbit (flags_value (result (operator_not f))) i
      = negb (Z.testbit (flags_value f) i).
Proof.
  intros Hf. split.
  - apply enum_not_involutive, Hf.
  - intros i Hi. rewrite flags_value_not.
    rewrite enum_not_underlying, convert_to_testbit by assumption.
    apply Z.lnot_spec. lia.
Qed.

Lemma double_not_is_identity_witness :
  flags_value (result (operator_not (result (operator_not
     (enum_flags_from_enum flag_val1))))) = 2.
Proof.
  refine (proj1 (double_not_is_identity some_flag (enum_flags_from_enum flag_val1) _)).
  apply in_rangeb_spec; reflexivity.
Defined.

(** C6.  A wrapper constructed from a value [e] of the enumeration
    stores [e]: [raw ()] returns [e], the conversion to the underlying
    type returns [e]'s integer, and the object is the same after either
    read. *)
Theorem construction_from_enum_stores_value (E : enum_decl) (e : enum_type E) :
  result (raw (enum_flags_from_enum e)) = e /\
  result (operator_underlying_type (enum_flags_from_enum e)) = underlying e /\
  object_after (raw (enum_flags_from_enum e)) = enum_flags_from_enum e /\
  object_after (operator_underlying_type (enum_flags_from_enum e))
    = enum_flags_from_enum e.
Proof. repeat split. Qed.

(** C7.  For every wrapper type, initialisation from the literal [0] is
    well-formed, it calls the constructor that takes a [zero_type *],
    and the wrapper's underlying integer is 0. *)
Theorem construction_from_literal_zero (tu : translation_unit) (E : enum_decl) :
  tu_language tu = CPlusPlus ->
  check tu (Initialize (flags_type_of E) (Literal 0))
    = WellFormed (Constructor (TZeroPtr (enum_type_of E))) (flags_type_of E) /\
  forall zero : zero_type_ptr,
    flags_value (@enum_flags_from_zero E zero) = 0.
Proof.
  intros Hl. split.
  - unfold check. rewrite Hl. reflexivity.
  - intros zero. unfold flags_value. simpl.
    apply convert_to_in_range, in_range_zero.
Qed.

Lemma construction_from_literal_zero_witness :
  check example_unit (Initialize (TFlags (TEnum "some_flag")) (Literal 0))
    = WellFormed (Constructor (TZeroPtr (TEnum "some_flag"))) (TFlags (TEnum "some_flag")) /\
  flags_value (@enum_flags_from_zero some_flag null_zero_type) = 0.
Proof.
  destruct (construction_from_literal_zero example_unit some_flag) as [Hc Hv].
  - reflexivity.
  - split; [exact Hc | exact (Hv null_zero_type)].
Defined.

(** C8, as stated, fails: the expression [enum_flags ()]
    value-initialises, the storage is zero-initialised before the
    defaulted constructor runs, and the underlying integer is 0
    whatever the storage held. *)
Lemma value_initialization_gives_zero :
  flags_value (initialize ValueInitialization (@EnumFlags some_flag (EnumValue 6))) = 0 /\
  (forall storage : enum_flags some_flag,
     flags_value (initialize ValueInitialization storage) = 0) /\
  ~ (exists storage : enum_flags some_flag,
       flags_value (initialize ValueInitialization storage) <> 0).
Proof.
  assert (H : forall storage : enum_flags some_flag,
            flags_value (initialize ValueInitialization storage) = 0)
    by (intros storage; reflexivity).
  split; [apply H | split; [exact H|]].
  intros [storage Hs]. apply Hs, H.
Qed.

(** C8, amended.  A wrapper that is default-initialised with automatic
    or dynamic storage ([some_flags f;]) gets no initialisation of the
    stored value from the defaulted constructor: its underlying integer
    is whatever the storage held, which can be any value of the
    underlying type and need not be 0, unlike after construction from
    the literal zero.  The expression [enum_flags ()] and an object of
    static storage are zero-initialised first and have the value 0. *)
Theorem default_initialization_leaves_value_indeterminate (E : enum_decl) :
  (forall storage : enum_flags E,
     flags_value (initialize DefaultInitialization storage) = flags_value storage) /\
  (forall z, in_range (enum_underlying E) z ->
     exists storage : enum_flags E,
       flags_value (initialize DefaultInitialization storage) = z) /\
  (exists storage : enum_flags E,
     in_range (enum_underlying E) (flags_value storage) /\
     flags_value (initialize DefaultInitialization storage) <> 0) /\
  (forall storage : enum_flags E,
     flags_value (initialize ValueInitialization storage) = 0) /\
  (forall storage : enum_flags E,
     flags_value (initialize StaticDefaultInitialization storage) = 0) /\
  (forall zero : zero_type_ptr, flags_value (@enum_flags_from_zero E zero) = 0).
Proof.
  assert (Hzero : flags_value (@EnumFlags E (to_enum 0)) = 0).
  { unfold flags_value. simpl. apply convert_to_in_range, in_range_zero. }
  repeat split.
  - intros z _. exists (EnumFlags (EnumValue z)). reflexivity.
  - exists (EnumFlags (EnumValue (if ut_signed (enum_underlying E) then -1 else 1))).
    unfold flags_value, in_range, ut_min, ut_max. simpl.
    pose proof (modulus_double (enum_underlying E)).
    pose proof (half_modulus_pos (enum_underlying E)).
    destruct (ut_signed (enum_underlying E)); split; lia.
  - intros storage. exact Hzero.
  - intros storage. exact Hzero.
  - intros zero. exact Hzero.
Qed.

Lemma default_initialization_leaves_value_indeterminate_witness :
  (exists storage : enum_flags some_flag,
     flags_value (initialize DefaultInitialization storage) = 6) /\
  flags_value (initialize ValueInitialization (@EnumFlags some_flag (EnumValue 6))) = 0.
Proof.
  destruct (default_initialization_leaves_value_indeterminate some_flag)
    as (_ & Hany & _ & Hvalue & _).
  split; [apply Hany, in_rangeb_spec; reflexivity | apply Hvalue].
Defined.

(** C9.  For every wrapper value [f], the underlying integer of
    [f & ~f] is 0. *)
Theorem and_with_complement_is_empty (E : enum_decl) (f : enum_flags E) :
  in_range (enum_underlying E) (flags_value f) ->
  flags_value (flags_flags_binop OpAnd f (result (operator_not f))) = 0.
Proof.
  intros Hf. rewrite flags_value_binop.
  rewrite enum_binop_underlying by (exact Hf || apply enum_not_range).
  change (m_enum_value (result (operator_not f))) with (enum_not (m_enum_value f)).
  rewrite enum_not_underlying. simpl. apply land_convert_lnot, Hf.
Qed.

Lemma and_with_complement_is_empty_witness :
  flags_value (flags_flags_binop OpAnd (enum_flags_from_enum flag_val3)
                 (result (operator_not (enum_flags_from_enum flag_val3)))) = 0.
Proof.
  apply (and_with_complement_is_empty some_flag (enum_flags_from_enum flag_val3)).
  apply in_rangeb_spec; reflexivity.
Defined.

(** ** Reachable values and the enumerators *)

Lemma testbit_fold_lor (l : list Z) (i : Z) :
  Z.testbit (fold_right Z.lor 0 l) i = existsb (fun c => Z.testbit c i) l.
Proof.
  induction l as [|c l IH]; simpl.
  - apply Z.bits_0.
  - rewrite Z.lor_spec, IH. reflexivity.
Qed.

Lemma testbit_Z_binop (op : binop) (a b i : Z) :
  Z.testbit (Z_binop op a b) i = true ->
  Z.testbit a i = true \/ Z.testbit b i = true.
Proof.
  destruct op; simpl.
  - rewrite Z.lor_spec. apply orb_true_iff.
  - rewrite Z.land_spec. intros H. apply andb_true_iff in H. tauto.
  - rewrite Z.lxor_spec. destruct (Z.testbit a i), (Z.testbit b i); auto.
Qed.

Lemma within_enumerators_binop (E : enum_decl) (op : binop) (e1 e2 : enum_type E) :
  within_enumerators E (underlying e1) ->
  within_enumerators E (underlying e2) ->
  within_enumerators E (underlying (enum_binop op e1 e2)).
Proof.
  intros [Hr1 Hb1] [Hr2 Hb2].
  rewrite enum_binop_underlying by assumption. split.
  - apply in_range_Z_binop; assumption.
  - intros i Hi Hbit. apply testbit_Z_binop in Hbit as [H | H]; auto.
Qed.

Lemma within_enumerators_zero (E : enum_decl) :
  within_enumerators E (convert_to (enum_underlying E) 0).
Proof.
  rewrite convert_to_in_range by apply in_range_zero. split.
  - apply in_range_zero.
  - intros i _. rewrite Z.bits_0. discriminate.
Qed.

(** Without [~], no operation sets a bit that no enumerator has. *)
Lemma reachable_within_enumerators (E : enum_decl) :
  enumerators_in_range E ->
  (forall e, reachable_enum E false e -> within_enumerators E (underlying e)) /\
  (forall f, reachable_flags E false f -> within_enumerators E (flags_value f)).
Proof.
  intros Hrange.
  apply (reachable_mutind E false
           (fun e => within_enumerators E (underlying e))
           (fun f => within_enumerators E (flags_value f))).
  - intros c Hc. split.
    + unfold enumerators_in_range in Hrange. rewrite Forall_forall in Hrange.
      apply Hrange. apply list_elem_of_In. exact Hc.
    + intros i _ Hbit. unfold all_enumerators. rewrite testbit_fold_lor.
      apply existsb_exists. exists c. auto.
  - intros f _ IH. exact IH.
  - intros op e1 e2 _ IH1 _ IH2. apply within_enumerators_binop; assumption.
  - intros e Hnot. discriminate.
  - intros op e1 e2 _ IH1 _ IH2. apply within_enumerators_binop; assumption.
  - intros e _ IH. exact IH.
  - apply within_enumerators_zero.
  - intros op f e _ IHf _ IHe. apply within_enumerators_binop; assumption.
  - intros op e f _ IHe _ IHf. apply within_enumerators_binop; assumption.
  - intros op f g _ IHf _ IHg. apply within_enumerators_binop; assumption.
  - intros f Hnot. discriminate.
  - intros op f g _ IHf _ IHg. apply within_enumerators_binop; assumption.
Qed.

Lemma land_single_bit (k z : Z) :
  0 <= k -> Z.testbit z k = true -> Z.land (2 ^ k) z = 2 ^ k.
Proof.
  intros Hk Hbit. apply Z.bits_inj'. intros j Hj.
  rewrite Z.land_spec, Z.pow2_bits_eqb by assumption.
  destruct (Z.eqb_spec k j) as [<- | Hne]; [rewrite Hbit|]; reflexivity.
Qed.

(** With single-bit enumerators, a value with no bit outside the
    enumerators is the OR of the enumerators it contains. *)
Lemma within_single_bits_is_or (E : enum_decl) (z : Z) :
  single_bit_enumerators E ->
  within_enumerators E z ->
  fold_right Z.lor 0 (selected_enumerators E z) = z.
Proof.
  intros Hsingle [_ Hbits]. apply Z.bits_inj'. intros i Hi.
  rewrite testbit_fold_lor.
  destruct (Z.testbit z i) eqn:Hz.
  - apply existsb_exists.
    specialize (Hbits i Hi Hz). unfold all_enumerators in Hbits.
    rewrite testbit_fold_lor in Hbits. apply existsb_exists in Hbits as (c & Hc & Hci).
    exists c. split; [|exact Hci].
    apply filter_In. split; [exact Hc|].
    unfold single_bit_enumerators in Hsingle. rewrite Forall_forall in Hsingle.
    destruct (Hsingle c) as (k & Hk & ->); [apply list_elem_of_In; exact Hc|].
    rewrite Z.pow2_bits_eqb in Hci by assumption.
    apply Z.eqb_eq in Hci. subst i.
    apply Z.eqb_eq, land_single_bit; assumption.
  - apply not_true_is_false. intros Hex.
    apply existsb_exists in Hex as (c & Hc & Hci).
    apply filter_In in Hc as [_ Hland]. apply Z.eqb_eq in Hland.
    rewrite <- Hland, Z.land_spec, Hz, andb_false_r in Hci. discriminate.
Qed.

Lemma or_of_some_flag_is_even (l : list Z) :
  Forall (fun c => In c (enumerator_values some_flag)) l ->
  Z.testbit (fold_right Z.lor 0 l) 0 = false.
Proof.
  induction 1 as [|c l Hc _ IH]; [reflexivity|].
  simpl fold_right. rewrite Z.lor_spec, IH, orb_false_r.
  simpl in Hc. destruct Hc as [<- | [<- | [<- | [<- | []]]]]; reflexivity.
Qed.

Lemma or_of_two_bit_flag (l : list Z) :
  Forall (fun c => In c (enumerator_values two_bit_flag)) l ->
  fold_right Z.lor 0 l = 0 \/
  Z.testbit (fold_right Z.lor 0 l) 1 = true \/
  Z.testbit (fold_right Z.lor 0 l) 2 = true.
Proof.
  induction 1 as [|c l Hc _ IH]; [left; reflexivity|].
  right. simpl fold_right. rewrite !Z.lor_spec.
  simpl in Hc. destruct Hc as [<- | [<- | []]]; simpl; auto.
Qed.

(** C4, as stated, fails: [~] of an enumerator of [some_flag] sets bit
    0, which no enumerator has; and where enumerators have more than
    one bit, [&] of two of them gives a value that is no OR of
    enumerators. *)
Lemma reachable_value_not_or_of_constants :
  (reachable_flags some_flag true
     (result (operator_not (enum_flags_from_enum flag_val1))) /\
   flags_value (result (operator_not (enum_flags_from_enum flag_val1)))
     = 4294967293 /\
   ~ or_of_constants some_flag
       (flags_value (result (operator_not (enum_flags_from_enum flag_val1))))) /\
  (reachable_flags two_bit_flag false
     (flags_flags_binop OpAnd (enum_flags_from_enum (EnumValue 3))
        (enum_flags_from_enum (EnumValue 5))) /\
   flags_value
     (flags_flags_binop OpAnd (@enum_flags_from_enum two_bit_flag (EnumValue 3))
        (enum_flags_from_enum (EnumValue 5))) = 1 /\
   ~ or_of_constants two_bit_flag 1) /\
  ~ (forall f : enum_flags some_flag,
       reachable_flags some_flag true f -> or_of_constants some_flag (flags_value f)).
Proof.
  assert (Hnot : reachable_flags some_flag true
                   (result (operator_not (enum_flags_from_enum flag_val1)))).
  { apply reach_not; [reflexivity|]. apply reach_from_enum.
    apply (reach_enumerator some_flag true 2). simpl. auto. }
  assert (Hno : ~ or_of_constants some_flag
                    (flags_value (result (operator_not (enum_flags_from_enum flag_val1))))).
  { intros (l & Hl & Heq). apply or_of_some_flag_is_even in Hl.
    rewrite Heq in Hl. discriminate. }
  split; [|split]; [| |intros Hall; exact (Hno (Hall _ Hnot))].
  all: split; [| split].
  - exact Hnot.
  - reflexivity.
  - exact Hno.
  - apply reach_flags_flags; apply reach_from_enum.
    + apply (reach_enumerator two_bit_flag false 3). simpl. auto.
    + apply (reach_enumerator two_bit_flag false 5). simpl. auto.
  - reflexivity.
  - intros (l & Hl & Heq). apply or_of_two_bit_flag in Hl.
    rewrite Heq in Hl. destruct Hl as [H | [H | H]]; discriminate.
Qed.

(** C4, amended.  In an enumeration whose enumerators are single bits,
    every wrapper value reachable from the enumerators and the literal
    zero through the constructors, [|], [&], [^] and the compound
    assignments, without [~], is the bitwise OR of zero or more
    enumerators. *)
Theorem reachable_without_not_is_or_of_constants (E : enum_decl) (f : enum_flags E) :
  enumerators_in_range E ->
  single_bit_enumerators E ->
  reachable_flags E false f ->
  or_of_constants E (flags_value f).
Proof.
  intros Hrange Hsingle Hreach.
  exists (selected_enumerators E (flags_value f)). split.
  - apply Forall_forall. intros c Hc. apply list_elem_of_In in Hc.
    apply filter_In in Hc. tauto.
  - apply within_single_bits_is_or; [assumption|].
    apply reachable_within_enumerators; assumption.
Qed.

Lemma reachable_without_not_is_or_of_constants_witness :
  or_of_constants some_flag 6.
Proof.
  apply (reachable_without_not_is_or_of_constants some_flag
           (flags_flags_binop OpOr (enum_flags_from_enum flag_val1)
              (enum_flags_from_enum flag_val2))).
  - repeat constructor; apply in_rangeb_spec; reflexivity.
  - repeat constructor.
    + exists 1. split; [lia | reflexivity].
    + exists 2. split; [lia | reflexivity].
    + exists 3. split; [lia | reflexivity].
    + exists 4. split; [lia | reflexivity].
  - apply reach_flags_flags; apply reach_from_enum.
    + apply (reach_enumerator some_flag false 2). simpl. auto.
    + apply (reach_enumerator some_flag false 4). simpl. auto.
Defined.

(** ** The claims on ill-formed programs *)

Lemma operand_cases (x : operand) (t : type) :
  type_of x = t -> t <> TInt -> x = Var t \/ x = Temp t.
Proof. destruct x; simpl; intros <- H; auto. congruence. Qed.

Lemma integer_operand_cases (x : operand) :
  type_of x = TInt -> (exists n, x = Literal n) \/ x = Var TInt \/ x = Temp TInt.
Proof. destruct x; simpl; intros H; subst; eauto. Qed.

Ltac split_operand H :=
  apply operand_cases in H; [destruct H as [-> | ->] | discriminate].

Ltac split_flags_operand H :=
  destruct H as [H | H]; split_operand H.

Ltac split_unrelated_operand H :=
  destruct H as [H | [? H]];
  [ apply integer_operand_cases in H; destruct H as [[? ->] | [-> | ->]]
  | split_operand H ].

(** C2, as stated, fails in the direction "only when": initialising a
    wrapper from a value of another enumeration, or from an integer
    variable, is rejected, and is none of the four listed uses. *)
Lemma rejected_but_not_listed :
  (ill_formed example_unit
     (Initialize (TFlags (TEnum "some_flag")) (Var (TEnum "other_flag"))) = true /\
   ~ listed example_unit
       (Initialize (TFlags (TEnum "some_flag")) (Var (TEnum "other_flag")))) /\
  (ill_formed example_unit
     (Initialize (TFlags (TEnum "some_flag")) (Var TInt)) = true /\
   ~ listed example_unit (Initialize (TFlags (TEnum "some_flag")) (Var TInt))) /\
  ~ (forall p, ill_formed example_unit p = true <-> listed example_unit p).
Proof.
  assert (H1 : ~ listed example_unit
                 (Initialize (TFlags (TEnum "some_flag")) (Var (TEnum "other_flag"))))
    by (intros H; inversion H).
  assert (H2 : ~ listed example_unit (Initialize (TFlags (TEnum "some_flag")) (Var TInt)))
    by (intros H; inversion H).
  repeat split; try assumption.
  intros Hall. apply H1, Hall. reflexivity.
Qed.

(** C2, amended.  In a C++ unit each of the four listed uses is
    ill-formed: (a) a wrapper initialised from a non-zero literal,
    (b) [|], [&] or [^] between a flags value and a value of another
    enumeration, (c) between a flags value and an integer or an
    unrelated class, (d) [<<] or [>>] with a flags value on the left,
    whatever is on the right.  The rejection is the outcome of the
    check, there is no run-time path. *)
Theorem listed_uses_are_ill_formed (tu : translation_unit) (p : attempt) :
  tu_language tu = CPlusPlus ->
  listed tu p ->
  ill_formed tu p = true.
Proof.
  intros Hl Hp. destruct Hp as
    [ e n Hn
    | op e1 e2 a b Hne [[_ Ht] Ha] Hb
    | op e1 e2 a b Hne Ha [[_ Ht] Hb]
    | op e a b [[_ Ht] Ha] Hb
    | op e a b Ha [[_ Ht] Hb]
    | o e a b Ho [[_ Ht] Ha] ].
  - destruct n; [congruence | |]; evaluate_check; reflexivity.
  - split_flags_operand Ha; split_flags_operand Hb;
      destruct (tu_enum_flags_type tu !! e2) eqn:Ht2, op;
      evaluate_check; reflexivity.
  - split_flags_operand Ha; split_flags_operand Hb;
      destruct (tu_enum_flags_type tu !! e1) eqn:Ht1, op;
      evaluate_check; reflexivity.
  - split_flags_operand Ha; split_unrelated_operand Hb;
      destruct op; evaluate_check; reflexivity.
  - split_flags_operand Hb; split_unrelated_operand Ha;
      destruct op; evaluate_check; reflexivity.
  - split_flags_operand Ha; destruct Ho as [-> | ->]; evaluate_check;
      destruct (implicit_conversion b TInt) as [[]|]; evaluate_check;
      reflexivity.
Qed.

Lemma listed_uses_are_ill_formed_witness :
  ill_formed example_unit
    (Binary (OpBinary OpOr) (Var (TFlags (TEnum "some_flag")))
       (Var (TEnum "other_flag"))) = true.
Proof.
  apply listed_uses_are_ill_formed.
  - reflexivity.
  - apply (listed_two_enums_l example_unit OpOr "some_flag" "other_flag").
    + discriminate.
    + split; [exact example_unit_some_flag | right; reflexivity].
    + left; reflexivity.
Defined.

(** The four listed uses on the header's own example. *)
Example listed_uses_on_some_flags :
  ill_formed example_unit (Initialize (TFlags (TEnum "some_flag")) (Literal 1)) = true /\
  ill_formed example_unit
    (Binary (OpBinary OpOr) (Var (TEnum "some_flag")) (Var (TEnum "other_flag"))) = true /\
  ill_formed example_unit
    (Binary (OpBinary OpAnd) (Var (TFlags (TEnum "some_flag"))) (Literal 1)) = true /\
  ill_formed example_unit
    (Binary OpShiftLeft (Var (TFlags (TEnum "some_flag"))) (Literal 1)) = true /\
  ill_formed example_unit
    (Binary OpShiftRight (Var (TEnum "some_flag")) (Literal 1)) = true.
Proof. repeat split. Qed.

(** Uses that are well-formed in C++: two enumerations that are not
    flags enums combine through the built-in operator, and a flags
    value may be the right operand of a shift. *)
Example well_formed_uses :
  ill_formed example_unit
    (Binary (OpBinary OpOr) (Var (TEnum "plain_a")) (Var (TEnum "plain_b"))) = false /\
  ill_formed example_unit
    (Binary OpShiftLeft (Literal 1) (Var (TFlags (TEnum "some_flag")))) = false.
Proof. split; reflexivity. Qed.

(** C10.  Compiled as C, [DEF_ENUM_FLAGS_TYPE] makes the flags type a
    typedef of the enumeration and enables nothing; on that type the
    uses that C++ rejects are well-formed: a non-zero literal
    initialises it, it combines with another enumeration, and it
    shifts. *)
Theorem c_fallback_is_plain_typedef (tu : translation_unit)
    (enum_type flags_type : string) :
  tu_language tu = C ->
  tu_typedefs (DEF_ENUM_FLAGS_TYPE enum_type flags_type tu) !! flags_type
    = Some (TEnum enum_type) /\
  tu_enum_flags_type (DEF_ENUM_FLAGS_TYPE enum_type flags_type tu)
    = tu_enum_flags_type tu /\
  (forall n,
     ill_formed (DEF_ENUM_FLAGS_TYPE enum_type flags_type tu)
       (Initialize (TEnum enum_type) (Literal n)) = false) /\
  (forall op other l1 l2,
     ill_formed (DEF_ENUM_FLAGS_TYPE enum_type flags_type tu)
       (Binary (OpBinary op) (operand_of l1 (TEnum enum_type))
          (operand_of l2 (TEnum other))) = false) /\
  (forall l n,
     ill_formed (DEF_ENUM_FLAGS_TYPE enum_type flags_type tu)
       (Binary OpShiftLeft (operand_of l (TEnum enum_type)) (Literal n)) = false /\
     ill_formed (DEF_ENUM_FLAGS_TYPE enum_type flags_type tu)
       (Binary OpShiftRight (operand_of l (TEnum enum_type)) (Literal n)) = false).
Proof.
  intros Hl. unfold DEF_ENUM_FLAGS_TYPE, ill_formed, check. rewrite Hl. simpl.
  repeat split.
  - apply lookup_insert_eq.
  - destruct l1, l2; reflexivity.
  - destruct l; reflexivity.
  - destruct l; reflexivity.
Qed.

Lemma c_fallback_is_plain_typedef_witness :
  tu_typedefs example_c_unit !! "some_flags" = Some (TEnum "some_flag") /\
  ill_formed example_c_unit (Initialize (TEnum "some_flag") (Literal 1)) = false.
Proof.
  destruct (c_fallback_is_plain_typedef (empty_unit C) "some_flag" "some_flags")
    as (Htypedef & _ & Hliteral & _).
  - reflexivity.
  - split; [exact Htypedef | exact (Hliteral 1)].
Defined.

(** ** Laws of the operators on values *)

Lemma flags_value_inj (E : enum_decl) (f g : enum_flags E) :
  flags_value f = flags_value g -> f = g.
Proof.
  destruct f as [[a]], g as [[b]]. unfold flags_value. simpl.
  intros ->. reflexivity.
Qed.

Lemma underlying_inj (E : enum_decl) (x y : enum_type E) :
  underlying x = underlying y -> x = y.
Proof. destruct x, y. simpl. intros ->. reflexivity. Qed.

Lemma Z_binop_comm (op : binop) (a b : Z) : Z_binop op a b = Z_binop op b a.
Proof.
  destruct op; simpl.
  - apply Z.lor_comm.
  - apply Z.land_comm.
  - apply Z.lxor_comm.
Qed.

Lemma Z_binop_assoc (op : binop) (a b c : Z) :
  Z_binop op (Z_binop op a b) c = Z_binop op a (Z_binop op b c).
Proof.
  destruct op; simpl.
  - symmetry. apply Z.lor_assoc.
  - symmetry. apply Z.land_assoc.
  - apply Z.lxor_assoc.
Qed.

(** Above the width of an unsigned type, a value of the type has no
    bit. *)
Lemma in_range_testbit_mask (t : underlying_type) (v i : Z) :
  in_range t v -> 0 <= i -> Z.testbit v i = true ->
  ut_signed t || (i <? Z.pos (ut_bits t)) = true.
Proof.
  intros Hv Hi Hbit. destruct (ut_signed t) eqn:Hs; [reflexivity|]. simpl.
  apply Z.ltb_lt. destruct (Z.lt_ge_cases i (Z.pos (ut_bits t))) as [|Hge]; [assumption|].
  exfalso. revert Hv. unfold in_range, ut_min, ut_max, modulus. rewrite Hs. intros Hv.
  rewrite <- (Z.mod_small v (2 ^ Z.pos (ut_bits t))) in Hbit by lia.
  rewrite Z.mod_pow2_bits_high in Hbit by lia. discriminate.
Qed.

Lemma in_range_lnot_signed (t : underlying_type) (v : Z) :
  ut_signed t = true -> in_range t v -> in_range t (Z.lnot v).
Proof.
  unfold in_range, ut_min, ut_max, Z.lnot. intros ->. lia.
Qed.

(** The bits of [~v] after the conversion to the type: the inverted
    bits of [v], over the width of an unsigned type and everywhere (the
    sign extension) for a signed type. *)
Lemma convert_to_lnot_testbit (t : underlying_type) (v i : Z) :
  in_range t v -> 0 <= i ->
  Z.testbit (convert_to t (Z.lnot v)) i
    = (ut_signed t || (i <? Z.pos (ut_bits t))) && negb (Z.testbit v i).
Proof.
  intros Hv Hi. destruct (ut_signed t) eqn:Hs.
  - rewrite convert_to_in_range by (apply in_range_lnot_signed; assumption).
    simpl. apply Z.lnot_spec, Hi.
  - unfold convert_to, modulus. rewrite Hs. simpl.
    rewrite Z.testbit_mod_pow2 by lia. rewrite Z.lnot_spec by assumption.
    reflexivity.
Qed.

Lemma in_range_lor (t : underlying_type) (a b : Z) :
  in_range t a -> in_range t b -> in_range t (Z.lor a b).
Proof. apply (in_range_Z_binop OpOr). Qed.

Lemma in_range_land (t : underlying_type) (a b : Z) :
  in_range t a -> in_range t b -> in_range t (Z.land a b).
Proof. apply (in_range_Z_binop OpAnd). Qed.

Lemma in_range_lxor (t : underlying_type) (a b : Z) :
  in_range t a -> in_range t b -> in_range t (Z.lxor a b).
Proof. apply (in_range_Z_binop OpXor). Qed.

Lemma to_enum_range (E : enum_decl) (z : Z) :
  in_range (enum_underlying E) (underlying (@to_enum E z)).
Proof. apply convert_to_range. Qed.

Create HintDb ranges.
#[local] Hint Resolve in_range_lor in_range_land in_range_lxor convert_to_range
  in_range_zero enum_binop_range enum_not_range to_enum_range : ranges.

Lemma enum_or_underlying (E : enum_decl) (x y : enum_type E) :
  in_range (enum_underlying E) (underlying x) ->
  in_range (enum_underlying E) (underlying y) ->
  underlying (enum_binop OpOr x y) = Z.lor (underlying x) (underlying y).
Proof. apply (enum_binop_underlying E OpOr). Qed.

Lemma enum_and_underlying (E : enum_decl) (x y : enum_type E) :
  in_range (enum_underlying E) (underlying x) ->
  in_range (enum_underlying E) (underlying y) ->
  underlying (enum_binop OpAnd x y) = Z.land (underlying x) (underlying y).
Proof. apply (enum_binop_underlying E OpAnd). Qed.

Lemma enum_xor_underlying (E : enum_decl) (x y : enum_type E) :
  in_range (enum_underlying E) (underlying x) ->
  in_range (enum_underlying E) (underlying y) ->
  underlying (enum_binop OpXor x y) = Z.lxor (underlying x) (underlying y).
Proof. apply (enum_binop_underlying E OpXor). Qed.

(** Reduce an equation between operator expressions to the underlying
    integers, then to booleans bit by bit. *)
Ltac to_integers :=
  repeat first
    [ rewrite enum_or_underlying by auto with ranges
    | rewrite enum_and_underlying by auto with ranges
    | rewrite enum_xor_underlying by auto with ranges
    | rewrite enum_not_underlying ].

Ltac mask_facts i Hi :=
  repeat match goal with
  | H : in_range ?t ?v |- _ =>
      lazymatch goal with
      | _ : Z.testbit v i = true -> _ |- _ => fail
      | _ => pose proof (in_range_testbit_mask t v i H Hi)
      end
  end.

Ltac bit_by_bit :=
  let i := fresh "i" in
  let Hi := fresh "Hi" in
  apply Z.bits_inj'; intros i Hi;
  repeat first
    [ rewrite Z.lor_spec | rewrite Z.land_spec | rewrite Z.lxor_spec
    | rewrite Z.bits_0
    | rewrite convert_to_lnot_testbit by auto with ranges ];
  mask_facts i Hi;
  repeat match goal with
  | |- context [ut_signed ?t || ?c] =>
      let m := fresh "m" in set (m := ut_signed t || c) in *; clearbody m
  end;
  repeat match goal with
  | |- context [Z.testbit ?v i] =>
      let b := fresh "b" in set (b := Z.testbit v i) in *; clearbody b
  end;
  repeat match goal with
  | b : bool |- _ => destruct b
  end;
  simpl in *;
  repeat match goal with
  | H : true = true -> _ |- _ => specialize (H eq_refl)
  end;
  congruence.

(** Open the wrapper operators up to the operators on the enumeration. *)
Ltac open_wrappers :=
  unfold flags_value, flags_flags_binop, flags_enum_binop, enum_flags_binop,
    operator_not, operator_and_assign, operator_or_assign, operator_xor_assign,
    operator_assign_op, enum_flags_from_enum, enum_flags_from_zero,
    object_after, result, raw, operator_underlying_type in *;
  cbn [fst snd m_enum_value] in *.

Ltac zero_value :=
  unfold to_enum; cbn [underlying];
  rewrite ?(convert_to_in_range _ 0) by apply in_range_zero.

Section Laws.

Variable E : enum_decl.

(** X1.  [|], [&] and [^] are commutative, and the overloads for the
    mixed shapes agree: [f OP e] and [e OP f] are the same wrapper. *)
Theorem binary_operators_commute (op : binop) (f g : enum_flags E)
    (x y : enum_type E) :
  flags_flags_binop op f g = flags_flags_binop op g f /\
  flags_enum_binop op f x = enum_flags_binop op x f /\
  enum_binop op x y = enum_binop op y x.
Proof.
  unfold flags_flags_binop, flags_enum_binop, enum_flags_binop, enum_binop,
    builtin_binop.
  repeat split; simpl; rewrite Z_binop_comm; reflexivity.
Qed.

(** X2.  Each of [|], [&] and [^] is associative on values of the
    underlying type, so two compound assignments in a row,
    [a OP= b; a OP= c;], leave [a] as the single [a OP= b OP c]. *)
Theorem binary_operators_associate (op : binop) (f g h : enum_flags E) :
  in_range (enum_underlying E) (flags_value f) ->
  in_range (enum_underlying E) (flags_value g) ->
  in_range (enum_underlying E) (flags_value h) ->
  flags_flags_binop op (flags_flags_binop op f g) h
    = flags_flags_binop op f (flags_flags_binop op g h) /\
  object_after (operator_assign_op op h (object_after (operator_assign_op op g f)))
    = object_after (operator_assign_op op (flags_flags_binop op g h) f).
Proof.
  intros Hf Hg Hh.
  split; apply flags_value_inj; open_wrappers;
    rewrite !enum_binop_underlying by auto with ranges;
    apply Z_binop_assoc.
Qed.

(** X3.  The wrapper made from the literal zero is the empty set: it is
    neutral for [|] and [^] and absorbing for [&]. *)
Theorem zero_is_the_empty_set (f : enum_flags E) :
  in_range (enum_underlying E) (flags_value f) ->
  flags_flags_binop OpOr f (enum_flags_from_zero null_zero_type) = f /\
  flags_flags_binop OpXor f (enum_flags_from_zero null_zero_type) = f /\
  flags_flags_binop OpAnd f (enum_flags_from_zero null_zero_type)
    = enum_flags_from_zero null_zero_type.
Proof.
  intros Hf.
  repeat split; apply flags_value_inj; open_wrappers; to_integers; zero_value.
  - apply Z.lor_0_r.
  - apply Z.lxor_0_r.
  - apply Z.land_0_r.
Qed.

(** X4.  [|] and [&] are idempotent, absorb each other and distribute;
    [f ^ f] is the empty set. *)
Theorem or_and_form_a_lattice (f g h : enum_flags E) :
  in_range (enum_underlying E) (flags_value f) ->
  in_range (enum_underlying E) (flags_value g) ->
  in_range (enum_underlying E) (flags_value h) ->
  flags_flags_binop OpOr f f = f /\
  flags_flags_binop OpAnd f f = f /\
  flags_flags_binop OpXor f f = enum_flags_from_zero null_zero_type /\
  flags_flags_binop OpOr f (flags_flags_binop OpAnd f g) = f /\
  flags_flags_binop OpAnd f (flags_flags_binop OpOr f g) = f /\
  flags_flags_binop OpAnd f (flags_flags_binop OpOr g h)
    = flags_flags_binop OpOr (flags_flags_binop OpAnd f g)
        (flags_flags_binop OpAnd f h).
Proof.
  intros Hf Hg Hh.
  repeat split; apply flags_value_inj; open_wrappers; to_integers; zero_value;
    bit_by_bit.
Qed.

(** X5.  Setting a flag: after [f |= e] the test [f & e] gives [e], and
    every bit [f] had is still set. *)
Theorem set_flag_then_test (f : enum_flags E) (e : enum_type E) :
  in_range (enum_underlying E) (flags_value f) ->
  in_range (enum_underlying E) (underlying e) ->
  flags_value
    (flags_enum_binop OpAnd
       (object_after (operator_or_assign (enum_flags_from_enum e) f)) e)
    = underlying e /\
  flags_flags_binop OpAnd
    (object_after (operator_or_assign (enum_flags_from_enum e) f)) f = f.
Proof.
  intros Hf He.
  split; [|apply flags_value_inj]; open_wrappers; to_integers; bit_by_bit.
Qed.

(** X6.  Clearing a flag: after [f &= ~e] the test [f & e] gives 0,
    the bits of [f] outside [e] are as they were, and ORing back the
    part of [e] that [f] had restores [f]. *)
Theorem clear_flag_then_test (f : enum_flags E) (e : enum_type E) :
  in_range (enum_underlying E) (flags_value f) ->
  in_range (enum_underlying E) (underlying e) ->
  flags_value
    (flags_enum_binop OpAnd
       (object_after (operator_and_assign (enum_flags_from_enum (enum_not e)) f)) e)
    = 0 /\
  (forall i, 0 <= i ->
     Z.testbit
       (flags_value
          (object_after (operator_and_assign (enum_flags_from_enum (enum_not e)) f))) i
       = Z.testbit (flags_value f) i && negb (Z.testbit (underlying e) i)) /\
  flags_flags_binop OpOr
    (object_after (operator_and_assign (enum_flags_from_enum (enum_not e)) f))
    (flags_enum_binop OpAnd f e) = f.
Proof.
  intros Hf He. split; [|split].
  - open_wrappers; to_integers; bit_by_bit.
  - intros i Hi. open_wrappers. to_integers.
    rewrite Z.land_spec, convert_to_lnot_testbit by assumption.
    pose proof (in_range_testbit_mask _ _ i Hf Hi) as Hm.
    destruct (Z.testbit (underlying (m_enum_value f)) i); [|reflexivity].
    rewrite Hm by reflexivity. reflexivity.
  - apply flags_value_inj. open_wrappers; to_integers; bit_by_bit.
Qed.

(** X7.  Toggling a flag twice, [f ^= e; f ^= e;], restores [f]. *)
Theorem toggle_flag_twice (f : enum_flags E) (e : enum_type E) :
  in_range (enum_underlying E) (flags_value f) ->
  in_range (enum_underlying E) (underlying e) ->
  object_after
    (operator_xor_assign (enum_flags_from_enum e)
       (object_after (operator_xor_assign (enum_flags_from_enum e) f))) = f.
Proof.
  intros Hf He. apply flags_value_inj. open_wrappers; to_integers; bit_by_bit.
Qed.

(** X8.  De Morgan: [~(f | g)] is [~f & ~g] and [~(f & g)] is
    [~f | ~g], whatever the width and signedness of the underlying
    type. *)
Theorem de_morgan (f g : enum_flags E) :
  in_range (enum_underlying E) (flags_value f) ->
  in_range (enum_underlying E) (flags_value g) ->
  result (operator_not (flags_flags_binop OpOr f g))
    = flags_flags_binop OpAnd (result (operator_not f)) (result (operator_not g)) /\
  result (operator_not (flags_flags_binop OpAnd f g))
    = flags_flags_binop OpOr (result (operator_not f)) (result (operator_not g)).
Proof.
  intros Hf Hg.
  split; apply flags_value_inj; open_wrappers; to_integers; bit_by_bit.
Qed.

(** X9.  The value of [~]: the complement within the underlying type,
    [max + min - v], that is [2 ^ bits - 1 - v] for an unsigned type
    and [- v - 1] for a signed one, for the wrapper and for the raw
    enumeration, also when the type is narrower than [int] and the
    operation is done on the promoted value. *)
Theorem not_is_complement_in_type (f : enum_flags E) (e : enum_type E) :
  in_range (enum_underlying E) (flags_value f) ->
  in_range (enum_underlying E) (underlying e) ->
  flags_value (result (operator_not f))
    = ut_max (enum_underlying E) + ut_min (enum_underlying E) - flags_value f /\
  underlying (enum_not e)
    = ut_max (enum_underlying E) + ut_min (enum_underlying E) - underlying e.
Proof.
  assert (H : forall v, in_range (enum_underlying E) v ->
            convert_to (enum_underlying E) (Z.lnot v)
              = ut_max (enum_underlying E) + ut_min (enum_underlying E) - v).
  { intros v Hv. destruct (ut_signed (enum_underlying E)) eqn:Hs.
    - rewrite convert_to_in_range by (apply in_range_lnot_signed; assumption).
      unfold ut_max, ut_min, Z.lnot. rewrite Hs. lia.
    - revert Hv. unfold in_range, convert_to, ut_max, ut_min. rewrite Hs. intros Hv.
      replace (Z.lnot v)
        with (modulus (enum_underlying E) - 1 - v + (-1) * modulus (enum_underlying E))
        by (unfold Z.lnot; lia).
      rewrite Z_mod_plus_full. rewrite Z.mod_small; lia. }
  intros Hf He. split.
  - rewrite flags_value_not, enum_not_underlying. apply H, Hf.
  - rewrite enum_not_underlying. apply H, He.
Qed.

(** X10.  The global [operator~] on the raw enumeration: applied twice
    it gives [e] back, [e & ~e] is the zero value, and [e | ~e] is
    [~0], every bit of the type. *)
Theorem raw_not_is_a_complement (e : enum_type E) :
  in_range (enum_underlying E) (underlying e) ->
  enum_not (enum_not e) = e /\
  enum_binop OpAnd e (enum_not e) = to_enum 0 /\
  enum_binop OpOr e (enum_not e) = enum_not (to_enum 0).
Proof.
  intros He.
  repeat split; apply underlying_inj; to_integers; zero_value; bit_by_bit.
Qed.

(** X11.  The test [(f & e) == e] holds exactly when every bit of [e]
    is set in [f]. *)
Theorem contains_test (f : enum_flags E) (e : enum_type E) :
  in_range (enum_underlying E) (flags_value f) ->
  in_range (enum_underlying E) (underlying e) ->
  flags_value (flags_enum_binop OpAnd f e) = underlying e <->
  (forall i, 0 <= i -> Z.testbit (underlying e) i = true ->
     Z.testbit (flags_value f) i = true).
Proof.
  intros Hf He. open_wrappers. to_integers. split.
  - intros Heq i Hi Hbit. rewrite <- Heq, Z.land_spec in Hbit.
    apply andb_true_iff in Hbit. tauto.
  - intros Hall. apply Z.bits_inj'. intros i Hi. rewrite Z.land_spec.
    specialize (Hall i Hi).
    destruct (Z.testbit (underlying e) i); [rewrite Hall by reflexivity|];
      auto using andb_false_r.
Qed.

(** X12.  [f ^ g] is what [f | g] has and [f & g] has not. *)
Theorem xor_is_or_without_and (f g : enum_flags E) :
  in_range (enum_underlying E) (flags_value f) ->
  in_range (enum_underlying E) (flags_value g) ->
  flags_flags_binop OpXor f g
    = flags_flags_binop OpAnd (flags_flags_binop OpOr f g)
        (result (operator_not (flags_flags_binop OpAnd f g))).
Proof.
  intros Hf Hg. apply flags_value_inj. open_wrappers; to_integers; bit_by_bit.
Qed.

(** X13.  Round trips between the wrapper, the enumeration and the
    underlying integer: a wrapper rebuilt from its [raw ()] is the same
    wrapper, and casting its underlying integer to the enumeration
    gives its [raw ()]. *)
Theorem conversions_round_trip (f : enum_flags E) :
  in_range (enum_underlying E) (flags_value f) ->
  enum_flags_from_enum (result (raw f)) = f /\
  to_enum (result (operator_underlying_type f)) = result (raw f).
Proof.
  intros Hf. split.
  - destruct f. reflexivity.
  - apply underlying_inj. open_wrappers. unfold to_enum. cbn [underlying].
    apply convert_to_in_range, Hf.
Qed.

(** X14.  Every value that the constructors and operators produce from
    the enumerators, [~] included, is a value of the underlying type. *)
Theorem reachable_values_are_in_range (with_not : bool) :
  enumerators_in_range E ->
  (forall e, reachable_enum E with_not e ->
     in_range (enum_underlying E) (underlying e)) /\
  (forall f, reachable_flags E with_not f ->
     in_range (enum_underlying E) (flags_value f)).
Proof.
  intros Hrange.
  apply (reachable_mutind E with_not
           (fun e => in_range (enum_underlying E) (underlying e))
           (fun f => in_range (enum_underlying E) (flags_value f)));
    intros; try (apply convert_to_range); try assumption.
  unfold enumerators_in_range in Hrange. rewrite Forall_forall in Hrange.
  apply Hrange, list_elem_of_In. assumption.
Qed.

End Laws.

Ltac in_range_by_computation := apply in_rangeb_spec; reflexivity.

Lemma binary_operators_associate_witness :
  flags_flags_binop OpOr
    (flags_flags_binop OpOr (enum_flags_from_enum flag_val1)
       (enum_flags_from_enum flag_val2)) (enum_flags_from_enum flag_val3)
  = flags_flags_binop OpOr (enum_flags_from_enum flag_val1)
      (flags_flags_binop OpOr (enum_flags_from_enum flag_val2)
         (enum_flags_from_enum flag_val3)).
Proof.
  refine (proj1 (binary_operators_associate some_flag OpOr
                   (enum_flags_from_enum flag_val1) (enum_flags_from_enum flag_val2)
                   (enum_flags_from_enum flag_val3) _ _ _));
    in_range_by_computation.
Defined.

Lemma zero_is_the_empty_set_witness :
  flags_flags_binop OpOr (enum_flags_from_enum flag_val1)
    (enum_flags_from_zero null_zero_type) = enum_flags_from_enum flag_val1.
Proof.
  refine (proj1 (zero_is_the_empty_set some_flag (enum_flags_from_enum flag_val1) _)).
  in_range_by_computation.
Defined.

Lemma or_and_form_a_lattice_witness :
  flags_flags_binop OpOr (enum_flags_from_enum flag_val1)
    (enum_flags_from_enum flag_val1) = enum_flags_from_enum flag_val1.
Proof.
  refine (proj1 (or_and_form_a_lattice some_flag (enum_flags_from_enum flag_val1)
                   (enum_flags_from_enum flag_val2) (enum_flags_from_enum flag_val3)
                   _ _ _));
    in_range_by_computation.
Defined.

Lemma set_flag_then_test_witness :
  flags_value
    (flags_enum_binop OpAnd
       (object_after (operator_or_assign (enum_flags_from_enum flag_val3)
                        (enum_flags_from_enum flag_val1))) flag_val3) = 8.
Proof.
  refine (proj1 (set_flag_then_test some_flag (enum_flags_from_enum flag_val1)
                   flag_val3 _ _));
    in_range_by_computation.
Defined.

Lemma clear_flag_then_test_witness :
  flags_value
    (flags_enum_binop OpAnd
       (object_after
          (operator_and_assign (enum_flags_from_enum (enum_not flag_val1))
             (enum_flags_from_enum (enum_binop OpOr flag_val1 flag_val2))))
       flag_val1) = 0.
Proof.
  refine (proj1 (clear_flag_then_test some_flag
                   (enum_flags_from_enum (enum_binop OpOr flag_val1 flag_val2))
                   flag_val1 _ _));
    in_range_by_computation.
Defined.

Lemma toggle_flag_twice_witness :
  object_after
    (operator_xor_assign (enum_flags_from_enum flag_val2)
       (object_after (operator_xor_assign (enum_flags_from_enum flag_val2)
                        (enum_flags_from_enum flag_val1))))
  = enum_flags_from_enum flag_val1.
Proof.
  apply (toggle_flag_twice some_flag (enum_flags_from_enum flag_val1) flag_val2);
    in_range_by_computation.
Defined.

Lemma de_morgan_witness :
  result (operator_not (flags_flags_binop OpOr (enum_flags_from_enum flag_val1)
                          (enum_flags_from_enum flag_val2)))
  = flags_flags_binop OpAnd (result (operator_not (enum_flags_from_enum flag_val1)))
      (result (operator_not (enum_flags_from_enum flag_val2))).
Proof.
  refine (proj1 (de_morgan some_flag (enum_flags_from_enum flag_val1)
                   (enum_flags_from_enum flag_val2) _ _));
    in_range_by_computation.
Defined.

Lemma not_is_complement_in_type_witness :
  underlying (enum_not flag_val1) = 4294967295 + 0 - 2.
Proof.
  refine (proj2 (not_is_complement_in_type some_flag (enum_flags_from_enum flag_val1)
                   flag_val1 _ _));
    in_range_by_computation.
Defined.

Lemma raw_not_is_a_complement_witness :
  enum_not (enum_not flag_val4) = flag_val4.
Proof.
  refine (proj1 (raw_not_is_a_complement some_flag flag_val4 _)).
  in_range_by_computation.
Defined.

Lemma contains_test_witness :
  flags_value (flags_enum_binop OpAnd (enum_flags_from_enum flag_val1) flag_val1) = 2 <->
  (forall i, 0 <= i -> Z.testbit 2 i = true -> Z.testbit 2 i = true).
Proof.
  apply (contains_test some_flag (enum_flags_from_enum flag_val1) flag_val1);
    in_range_by_computation.
Defined.

Lemma xor_is_or_without_and_witness :
  flags_flags_binop OpXor (enum_flags_from_enum flag_val1) (enum_flags_from_enum flag_val2)
  = flags_flags_binop OpAnd
      (flags_flags_binop OpOr (enum_flags_from_enum flag_val1)
         (enum_flags_from_enum flag_val2))
      (result (operator_not
         (flags_flags_binop OpAnd (enum_flags_from_enum flag_val1)
            (enum_flags_from_enum flag_val2)))).
Proof.
  apply (xor_is_or_without_and some_flag); in_range_by_computation.
Defined.

Lemma conversions_round_trip_witness :
  to_enum (result (operator_underlying_type (enum_flags_from_enum flag_val2)))
  = result (raw (enum_flags_from_enum flag_val2)).
Proof.
  refine (proj2 (conversions_round_trip some_flag (enum_flags_from_enum flag_val2) _)).
  in_range_by_computation.
Defined.

Lemma some_flag_enumerators_in_range : enumerators_in_range some_flag.
Proof. repeat constructor; apply in_rangeb_spec; reflexivity. Qed.

Lemma reachable_values_are_in_range_witness :
  in_range unsigned_int
    (flags_value (result (operator_not (@enum_flags_from_enum some_flag flag_val1)))).
Proof.
  refine (proj2 (reachable_values_are_in_range some_flag true _) _ _).
  - repeat constructor; apply in_rangeb_spec; reflexivity.
  - apply reach_not; [reflexivity|]. apply reach_from_enum.
    apply (reach_enumerator some_flag true 2). simpl. auto.
Defined.

(** ** The header's templates and the trait *)

Lemma deduce_enum_type (P1 P2 : parameter_type) (A1 A2 : type) (s : substitution) (T : type) :
  deduce P1 P2 A1 A2 = Some s -> s_enum_type s = Some T ->
  T = A1 \/ T = A2 \/ A1 = TFlags T \/ A2 = TFlags T.
Proof.
  unfold deduce.
  destruct P1 as [[]|[]], P2 as [[]|[]], A1, A2; simpl;
    repeat match goal with
    | |- context [if ?c then _ else _] => destruct c
    end;
    intros Hs HT; try discriminate;
    injection Hs as <-; simpl in HT; try discriminate;
    injection HT as <-; auto.
Qed.

Lemma argument_type_no_flags_enum (tu : translation_unit) (pass : passing)
    (x : operand) :
  has_no_flags_enum tu (type_of x) ->
  has_no_flags_enum tu (argument_type pass x).
Proof.
  intros H. destruct pass; simpl; try exact H.
  destruct (is_lvalue x); [|exact H].
  split; [reflexivity | discriminate].
Qed.

(** No operator template is a candidate for operands whose types
    involve no flags enum: substitution into the return type fails. *)
Lemma template_needs_a_flags_enum (tu : translation_unit) (d : declaration)
    (a b : operand) :
  has_no_flags_enum tu (type_of a) ->
  has_no_flags_enum tu (type_of b) ->
  template_candidate tu d a b = None.
Proof.
  intros Ha Hb. unfold template_candidate.
  destruct (binds _ a && binds _ b); [|reflexivity].
  destruct (deduce _ _ _ _) as [s|] eqn:Hd; [|reflexivity].
  apply (argument_type_no_flags_enum tu (fst (d_param1 d))) in Ha.
  apply (argument_type_no_flags_enum tu (fst (d_param2 d))) in Hb.
  unfold substitute_return.
  destruct (s_enum_type s) as [T|] eqn:HT; [|reflexivity].
  destruct (deduce_enum_type _ _ _ _ _ _ Hd HT) as [-> | [-> | [H | H]]].
  - rewrite (proj1 Ha). reflexivity.
  - rewrite (proj1 Hb). reflexivity.
  - rewrite (proj2 Ha _ H). reflexivity.
  - rewrite (proj2 Hb _ H). reflexivity.
Qed.

Lemma candidates_without_flags_enum (tu : translation_unit) (o : operator_name)
    (a b : operand) :
  has_no_flags_enum tu (type_of a) ->
  has_no_flags_enum tu (type_of b) ->
  candidates tu o a b
    = option_to_list (member_candidate o a b)
      ++ option_to_list (builtin_candidate o a b).
Proof.
  intros Ha Hb. unfold candidates.
  assert (H : forall l,
            flat_map (fun d => if operator_eqb (d_operator d) o
                               then option_to_list (template_candidate tu d a b)
                               else []) l = []).
  { induction l as [|d l IH]; [reflexivity|]. simpl.
    rewrite template_needs_a_flags_enum, IH by assumption.
    destruct (operator_eqb _ _); reflexivity. }
  rewrite H. reflexivity.
Qed.

Lemma plain_operand_no_flags_enum (tu : translation_unit) (e : string) (x : operand) :
  tu_enum_flags_type tu !! e = None ->
  type_of x = TInt \/ type_of x = TEnum e ->
  has_no_flags_enum tu (type_of x).
Proof.
  intros He [-> | ->]; (split; [|discriminate]); simpl; auto.
Qed.

(** X15.  The trait keeps the header's operators away from other
    enumerations: in a C++ unit, between integers and enumerations that
    are not flags enums, [|], [&], [^], [<<] and [>>] are the built-in
    operators with an integer result, and a compound assignment to such
    an enumeration is ill-formed, as without the header. *)
Theorem operators_leave_other_enumerations_alone (tu : translation_unit)
    (e1 e2 : string) (op : binop) (a b : operand) :
  tu_language tu = CPlusPlus ->
  tu_enum_flags_type tu !! e1 = None ->
  tu_enum_flags_type tu !! e2 = None ->
  type_of a = TInt \/ type_of a = TEnum e1 ->
  type_of b = TInt \/ type_of b = TEnum e2 ->
  check tu (Binary (OpBinary op) a b) = WellFormed BuiltIn TInt /\
  check tu (Binary OpShiftLeft a b) = WellFormed BuiltIn TInt /\
  check tu (Binary OpShiftRight a b) = WellFormed BuiltIn TInt /\
  (type_of a = TEnum e1 -> ill_formed tu (Binary (OpCompound op) a b) = true).
Proof.
  intros Hl H1 H2 Ha Hb.
  pose proof (plain_operand_no_flags_enum tu e1 a H1 Ha) as Na.
  pose proof (plain_operand_no_flags_enum tu e2 b H2 Hb) as Nb.
  unfold ill_formed, check. rewrite Hl. unfold cplusplus_check, resolve.
  rewrite !candidates_without_flags_enum by assumption.
  assert (Ca : exists r, implicit_conversion a TInt = Some r).
  { destruct a as [n|t|t], Ha as [Ha | Ha]; simpl in Ha; subst;
      try discriminate; eexists; reflexivity. }
  assert (Cb : exists r, implicit_conversion b TInt = Some r).
  { destruct b as [n|t|t], Hb as [Hb | Hb]; simpl in Hb; subst;
      try discriminate; eexists; reflexivity. }
  destruct Ca as [ra Ca], Cb as [rb Cb].
  assert (Ma : forall o, member_candidate o a b = None).
  { intros o. unfold member_candidate.
    destruct o; try reflexivity. destruct Ha as [-> | ->]; reflexivity. }
  repeat split; rewrite ?Ma; unfold builtin_candidate; rewrite ?Ca, ?Cb;
    try reflexivity.
  intros Ha'. rewrite Ha'. simpl. rewrite andb_false_r. reflexivity.
Qed.

Lemma operators_leave_other_enumerations_alone_witness :
  check example_unit
    (Binary (OpBinary OpOr) (Var (TEnum "plain_a")) (Var (TEnum "plain_b")))
    = WellFormed BuiltIn TInt.
Proof.
  refine (proj1 (operators_leave_other_enumerations_alone example_unit
                   "plain_a" "plain_b" OpOr (Var (TEnum "plain_a"))
                   (Var (TEnum "plain_b")) _ _ _ _ _));
    first [reflexivity | right; reflexivity].
Defined.

(** ** Which operands the operators accept *)

Ltac case_names :=
  repeat match goal with
  | |- context [String.eqb ?x ?y] =>
      destruct (String.eqb_spec x y); [subst|]
  | |- context [tu_enum_flags_type ?tu !! ?x] =>
      lazymatch goal with
      | H : tu_enum_flags_type tu !! x = _ |- _ => rewrite H
      | _ => destruct (tu_enum_flags_type tu !! x) eqn:?
      end
  | |- context [type_eqb ?t _] => is_var t; destruct t
  | |- context [match ?t with _ => _ end] =>
      is_var t;
      lazymatch type of t with
      | type => destruct t
      end
  | _ => progress (cbn -[String.eqb])
  end.

Ltac split_any_operand b :=
  let t := fresh "t" in
  destruct b as [?|[| | t| | | | |]|[| | t| | | | |]]; try destruct t.

Ltac decide_operand_type :=
  simpl; split; intros ?;
  repeat match goal with
  | H : _ \/ _ |- _ => destruct H
  end;
  try discriminate; try congruence; auto.

(** X16.  With a flags value on one side, [|], [&] and [^] are
    well-formed exactly when the other side is a value of the same
    enumeration or of its wrapper. *)
Theorem bitwise_operator_needs_same_enumeration (tu : translation_unit)
    (e : string) (op : binop) (a b : operand) :
  flags_enum tu e ->
  type_of a = TEnum e \/ type_of a = TFlags (TEnum e) ->
  (ill_formed tu (Binary (OpBinary op) a b) = false <->
   (type_of b = TEnum e \/ type_of b = TFlags (TEnum e))) /\
  (ill_formed tu (Binary (OpBinary op) b a) = false <->
   (type_of b = TEnum e \/ type_of b = TFlags (TEnum e))).
Proof.
  intros [Hl Ht] Ha.
  split_flags_operand Ha; split_any_operand b; destruct op;
    (split; evaluate_check; case_names; decide_operand_type).
Qed.

Lemma bitwise_operator_needs_same_enumeration_witness :
  ill_formed example_unit
    (Binary (OpBinary OpAnd) (Var (TFlags (TEnum "some_flag")))
       (Var (TFlags (TEnum "other_flag")))) = false <->
  (TFlags (TEnum "other_flag") = TEnum "some_flag" \/
   TFlags (TEnum "other_flag") = TFlags (TEnum "some_flag")).
Proof.
  refine (proj1 (bitwise_operator_needs_same_enumeration example_unit "some_flag"
                   OpAnd (Var (TFlags (TEnum "some_flag")))
                   (Var (TFlags (TEnum "other_flag")))
                   example_unit_some_flag _)).
  right; reflexivity.
Defined.

(** X17.  Among the operands of the model (integer literals, and
    variables and temporaries of integer, [std::nullptr_t],
    enumeration, wrapper, conversion-free class or the private
    [zero_type *] type), a wrapper is initialised by exactly: a null
    pointer constant, that is the literal [0] or an operand of type
    [std::nullptr_t]; a value of the wrapped enumeration; a wrapper of
    the same enumeration; a [zero_type *].  A non-zero literal, an
    integer variable, another enumeration, another wrapper and a class
    do not.  The other way, a wrapper initialises an integer. *)
Theorem wrapper_initialisation_sources (tu : translation_unit) (e : string)
    (x : operand) (l : bool) :
  tu_language tu = CPlusPlus ->
  (ill_formed tu (Initialize (TFlags (TEnum e)) x) = false <->
   (x = Literal 0 \/ type_of x = TNullptr \/ type_of x = TEnum e \/
    type_of x = TFlags (TEnum e) \/ type_of x = TZeroPtr (TEnum e))) /\
  ill_formed tu (Initialize TInt (operand_of l (TFlags (TEnum e)))) = false.
Proof.
  intros Hl. split.
  - destruct x as [[| |]|[| | t| | | | |]|[| | t| | | | |]]; try destruct t;
      evaluate_check_conversions; case_names; decide_operand_type.
  - destruct l; evaluate_check_conversions; reflexivity.
Qed.

Lemma wrapper_initialisation_sources_witness :
  (ill_formed example_unit (Initialize (TFlags (TEnum "some_flag")) (Temp TNullptr)) = false <->
   (Temp TNullptr = Literal 0 \/ TNullptr = TNullptr \/ TNullptr = TEnum "some_flag" \/
    TNullptr = TFlags (TEnum "some_flag") \/ TNullptr = TZeroPtr (TEnum "some_flag"))) /\
  ill_formed example_unit (Initialize (TFlags (TEnum "some_flag")) (Temp TNullptr)) = false.
Proof.
  pose proof (proj1 (wrapper_initialisation_sources example_unit "some_flag"
                       (Temp TNullptr) true eq_refl)) as H.
  split; [exact H | apply H; right; left; reflexivity].
Defined.

(** X18.  The right operand of a compound assignment, among the
    operands of the model: a wrapper accepts exactly what initialises
    a wrapper (the member converts its argument), [nullptr] included;
    a raw flags enum variable accepts a value of exactly its
    enumeration, and an integer, [nullptr], another enumeration or even
    its own wrapper is rejected. *)
Theorem compound_assignment_operands (tu : translation_unit) (e : string)
    (op : binop) (l : bool) (b : operand) :
  flags_enum tu e ->
  (ill_formed tu
     (Binary (OpCompound op) (operand_of l (TFlags (TEnum e))) b) = false <->
   (b = Literal 0 \/ type_of b = TNullptr \/ type_of b = TEnum e \/
    type_of b = TFlags (TEnum e) \/ type_of b = TZeroPtr (TEnum e))) /\
  (ill_formed tu
     (Binary (OpCompound op) (operand_of l (TEnum e)) b) = false <->
   type_of b = TEnum e).
Proof.
  intros [Hl Ht].
  destruct l, op; (split;
    [ destruct b as [[| |]|[| | t| | | | |]|[| | t| | | | |]]; try destruct t
    | split_any_operand b ];
    evaluate_check_conversions; case_names; decide_operand_type).
Qed.

Lemma compound_assignment_operands_witness :
  (ill_formed example_unit
     (Binary (OpCompound OpOr) (Var (TEnum "some_flag"))
        (Var (TFlags (TEnum "some_flag")))) = false <->
   TFlags (TEnum "some_flag") = TEnum "some_flag") /\
  ill_formed example_unit
    (Binary (OpCompound OpOr) (Var (TFlags (TEnum "some_flag"))) (Temp TNullptr)) = false.
Proof.
  destruct (compound_assignment_operands example_unit "some_flag" OpOr true
              (Var (TFlags (TEnum "some_flag"))) example_unit_some_flag) as [_ H1].
  destruct (compound_assignment_operands example_unit "some_flag" OpOr true
              (Temp TNullptr) example_unit_some_flag) as [H2 _].
  split; [exact H1 | apply H2; right; left; reflexivity].
Defined.

(** ** The macros *)

Lemma def_enum_flags_type_enables (tu : translation_unit)
    (enum_type flags_type : string) :
  tu_language tu = CPlusPlus ->
  flags_enum (DEF_ENUM_FLAGS_TYPE enum_type flags_type tu) enum_type.
Proof.
  intros Hl. unfold DEF_ENUM_FLAGS_TYPE, flags_enum. rewrite Hl. simpl.
  split; [reflexivity | apply lookup_insert_eq].
Qed.

(** X20.  The usage the header documents.  After
    [DEF_ENUM_FLAGS_TYPE (E, F)] in a C++ unit,
    [F f = val1 | val2;], [f |= val3;] and [F f = 0;] are well-formed
    and [F f = 1;] is not.  With the raw enumeration instead, [|] gives
    an integer, which does not initialise a variable of the
    enumeration. *)
Theorem documented_usage (tu : translation_unit) (e f : string) :
  tu_language tu = CPlusPlus ->
  tu_typedefs (DEF_ENUM_FLAGS_TYPE e f tu) !! f = Some (TFlags (TEnum e)) /\
  check (DEF_ENUM_FLAGS_TYPE e f tu)
    (Binary (OpBinary OpOr) (Temp (TEnum e)) (Temp (TEnum e)))
    = WellFormed (Template (binop_enum_enum OpOr)) (TEnum e) /\
  check (DEF_ENUM_FLAGS_TYPE e f tu) (Initialize (TFlags (TEnum e)) (Temp (TEnum e)))
    = WellFormed (Constructor (TEnum e)) (TFlags (TEnum e)) /\
  check (DEF_ENUM_FLAGS_TYPE e f tu)
    (Binary (OpCompound OpOr) (Var (TFlags (TEnum e))) (Temp (TEnum e)))
    = WellFormed (MemberCompound OpOr) (TFlags (TEnum e)) /\
  check (DEF_ENUM_FLAGS_TYPE e f tu) (Initialize (TFlags (TEnum e)) (Literal 0))
    = WellFormed (Constructor (TZeroPtr (TEnum e))) (TFlags (TEnum e)) /\
  ill_formed (DEF_ENUM_FLAGS_TYPE e f tu)
    (Initialize (TFlags (TEnum e)) (Literal 1)) = true /\
  (tu_enum_flags_type tu !! e = None ->
   check tu (Binary (OpBinary OpOr) (Temp (TEnum e)) (Temp (TEnum e)))
     = WellFormed BuiltIn TInt /\
   ill_formed tu (Initialize (TEnum e) (Temp TInt)) = true).
Proof.
  intros Hl.
  destruct (def_enum_flags_type_enables tu e f Hl) as [Hl' Ht'].
  split; [|repeat split].
  - unfold DEF_ENUM_FLAGS_TYPE. rewrite Hl. simpl. apply lookup_insert_eq.
  - apply (binary_operator_selection _ e OpOr false false). split; assumption.
  - unfold check. rewrite Hl'. evaluate_check_conversions. reflexivity.
  - apply (compound_assignment_selection _ e OpOr false). split; assumption.
  - unfold check. rewrite Hl'. reflexivity.
  - unfold ill_formed, check. rewrite Hl'. reflexivity.
  - evaluate_check. reflexivity.
  - evaluate_check_conversions. reflexivity.
Qed.

Lemma documented_usage_witness :
  check example_unit
    (Binary (OpCompound OpOr) (Var (TFlags (TEnum "other_flag")))
       (Temp (TEnum "other_flag")))
  = WellFormed (MemberCompound OpOr) (TFlags (TEnum "other_flag")).
Proof.
  destruct (documented_usage
              (DEF_ENUM_FLAGS_TYPE "some_flag" "some_flags" (empty_unit CPlusPlus))
              "other_flag" "other_flags") as (_ & _ & _ & H & _).
  - reflexivity.
  - exact H.
Defined.

(** ** Unary [~] *)

(** X21.  [~] keeps the flags type: on a value of a flags enum it is
    the header's template and has the enumeration's type, on a wrapper
    it is the member and has the wrapper's type, so [f &= ~e] is
    well-formed; on an enumeration that is no flags enum it is the
    built-in operator with an integer result, which no wrapper
    takes. *)
Theorem not_keeps_the_flags_type (tu : translation_unit) (e e' : string)
    (l : bool) :
  flags_enum tu e ->
  tu_enum_flags_type tu !! e' = None ->
  check_not tu (operand_of l (TEnum e)) = Some (NotTemplate, TEnum e) /\
  check_not tu (operand_of l (TFlags (TEnum e))) = Some (NotMember, TFlags (TEnum e)) /\
  check tu (Binary (OpCompound OpAnd) (Var (TFlags (TEnum e))) (Temp (TEnum e)))
    = WellFormed (MemberCompound OpAnd) (TFlags (TEnum e)) /\
  check_not tu (operand_of l (TEnum e')) = Some (NotBuiltIn, TInt) /\
  ill_formed tu (Binary (OpCompound OpAnd) (Var (TFlags (TEnum e))) (Temp TInt)) = true.
Proof.
  intros [Hl Ht] Hn. repeat split.
  - destruct l; unfold check_not, not_candidates, not_template_candidate;
      cbn -[String.eqb]; rewrite Ht; reflexivity.
  - destruct l; unfold check_not, not_candidates, not_template_candidate;
      cbn -[String.eqb]; reflexivity.
  - apply (compound_assignment_selection tu e OpAnd false). split; assumption.
  - destruct l; unfold check_not, not_candidates, not_template_candidate;
      cbn -[String.eqb]; rewrite Hn; reflexivity.
  - evaluate_check_conversions. reflexivity.
Qed.

Lemma not_keeps_the_flags_type_witness :
  check_not example_unit (Temp (TEnum "some_flag")) = Some (NotTemplate, TEnum "some_flag") /\
  check_not example_unit (Temp (TEnum "plain")) = Some (NotBuiltIn, TInt).
Proof.
  destruct (not_keeps_the_flags_type example_unit "some_flag" "plain" false
              example_unit_some_flag) as (H1 & _ & _ & H2 & _).
  - reflexivity.
  - split; [exact H1 | exact H2].
Defined.
